(** * The session-scoped JSON-RPC dispatch layer of the WalletConnect dApp

    A shallow embedding of [src/contexts/JsonRpcContext.tsx] (its second copy
    in the repository is the same file without the two Chia notification
    entries) and of the method enums of [src/constants/default.ts].

    - JavaScript values (wallet responses, request parameters, thrown
      values) are the inductive [jsval].
    - An [async] routine is a function from a state to an [outcome] and a new
      state; every awaited promise is taken at the moment it settles:
      [Returned] when it resolves, [Thrown] when it rejects.  A promise that
      never settles is outside the model, and so is the interleaving of two
      invocations in flight at once.
    - The chain routines run over the event log only (type [Rpc]); the
      dispatch wrapper runs over the React state [pending]/[result] and the
      same log (type [UI]).  The log records, in order, the setter calls,
      the requests sent over the session transport and the other network
      reads.
    - The session client, the chain-metadata table, the account list and the
      balances are read from a [Ctx]; the third-party libraries, the helpers
      of [../helpers] and the clock are read from a [World]. *)

From Stdlib Require Import ZArith Ascii.
From stdpp Require Import base option list gmap strings pretty.

Set Default Proof Using "Type".

(** ** JavaScript values *)

#[warnings="-register-all"]
Inductive jsval : Type :=
| VUndefined
| VNull
| VBool (b : bool)
| VNum (n : Z)
| VStr (s : string)
| VArr (items : list jsval)
| VObj (fields : list (string * jsval))
| VError (name message : string).

(** [new Error(message)] *)
Definition Error (message : string) : jsval := VError "Error" message.

(** The engine's error for a property read on [undefined] or [null]. *)
Definition TypeError_read (of_ : string) (prop : string) : jsval :=
  VError "TypeError"
    ("Cannot read properties of " +:+ of_ +:+ " (reading '" +:+ prop +:+ "')").

Definition TypeError_not_a_function (what : string) : jsval :=
  VError "TypeError" (what +:+ " is not a function").

(** First binding of a key in an object's field list. *)
Fixpoint assoc {A : Type} (k : string) (l : list (string * A)) : option A :=
  match l with
  | [] => None
  | (k', v) :: l' => if String.eqb k k' then Some v else assoc k l'
  end.

(** [Error.prototype.toString] *)
Definition error_toString (name message : string) : string :=
  if String.eqb name "" then message
  else if String.eqb message "" then name
  else name +:+ ": " +:+ message.

(** [String(v)].  Numbers are the integers the fixtures use; an array is its
    elements joined by a comma, with [undefined] and [null] printed empty. *)
Fixpoint js_String (v : jsval) : string :=
  match v with
  | VUndefined => "undefined"
  | VNull => "null"
  | VBool true => "true"
  | VBool false => "false"
  | VNum n => pretty n
  | VStr s => s
  | VArr items =>
      (fix join (l : list jsval) : string :=
         match l with
         | [] => ""
         | x :: l' =>
             let sx := match x with
                       | VUndefined | VNull => ""
                       | _ => js_String x
                       end in
             match l' with
             | [] => sx
             | _ :: _ => sx +:+ "," +:+ join l'
             end
         end) items
  | VObj _ => "[object Object]"
  | VError name message => error_toString name message
  end.

(** [new Error(x)]: the message is [String(x)], and is empty for
    [undefined]. *)
Definition new_Error (x : jsval) : jsval :=
  match x with
  | VUndefined => Error ""
  | _ => Error (js_String x)
  end.

(** [x + s] for a string [s]. *)
Definition js_plus_str (x : jsval) (s : string) : jsval :=
  VStr (js_String x +:+ s).

(** [err?.message ?? err] *)
Definition message_or_self (err : jsval) : jsval :=
  match err with
  | VUndefined | VNull => err
  | VError _ message => VStr message
  | VObj fields =>
      match assoc "message" fields with
      | None | Some VUndefined | Some VNull => err
      | Some m => m
      end
  | VBool _ | VNum _ | VStr _ | VArr _ => err
  end.

(** [s.toLowerCase()] on the ASCII letters. *)
Definition ascii_toLowerCase (c : ascii) : ascii :=
  let n := nat_of_ascii c in
  if (65 <=? n)%nat && (n <=? 90)%nat then ascii_of_nat (n + 32) else c.

Fixpoint toLowerCase (s : string) : string :=
  match s with
  | EmptyString => EmptyString
  | String c s' => String (ascii_toLowerCase c) (toLowerCase s')
  end.

(** [s.split(":")]: the pieces between the separators; never empty. *)
Fixpoint split_go (sep : ascii) (cur : string) (s : string) : list string :=
  match s with
  | EmptyString => [String.rev cur]
  | String c s' =>
      if Ascii.eqb c sep then String.rev cur :: split_go sep EmptyString s'
      else split_go sep (String c cur) s'
  end.

Definition split (sep : ascii) (s : string) : list string :=
  split_go sep EmptyString s.

(** An array element read by a destructuring pattern or an index: a string
    piece, or [undefined] past the end. *)
Definition piece (l : list string) (i : nat) : jsval :=
  match l !! i with
  | Some s => VStr s
  | None => VUndefined
  end.

(** ** Outcomes and the effect monad *)

Inductive outcome (A : Type) : Type :=
| Returned (a : A)
| Thrown (e : jsval).
Arguments Returned {A} a.
Arguments Thrown {A} e.

Definition Eff (S A : Type) : Type := S → outcome A * S.

#[global] Instance Eff_ret {S} : MRet (Eff S) :=
  λ A a s, (Returned a, s).

#[global] Instance Eff_bind {S} : MBind (Eff S) :=
  λ A B f m s,
    match m s with
    | (Returned a, s') => f a s'
    | (Thrown e, s') => (Thrown e, s')
    end.

#[global] Instance Eff_throw {S} : MThrow jsval (Eff S) :=
  λ A e s, (Thrown e, s).

(** An external answer, already settled. *)
Definition settle {S A} (o : outcome A) : Eff S A := λ s, (o, s).

(** [try { body } catch (err) { handler }] *)
Definition try_catch {S A} (body : Eff S A) (handler : jsval → Eff S A) : Eff S A :=
  λ s,
    match body s with
    | (Returned a, s') => (Returned a, s')
    | (Thrown e, s') => handler e s'
    end.

(** [try { body } finally { fin }]: [fin] runs on both exits; the body's
    outcome stands unless [fin] itself throws. *)
Definition try_finally {S A} (body : Eff S A) (fin : Eff S unit) : Eff S A :=
  λ s,
    match body s with
    | (o, s') =>
        match fin s' with
        | (Returned _, s'') => (o, s'')
        | (Thrown e, s'') => (Thrown e, s'')
        end
    end.

(** Property read [v.prop] (for the property names used in this file: none of
    them is defined on a primitive or an array). *)
Definition js_get (v : jsval) (prop : string) : outcome jsval :=
  match v with
  | VUndefined => Thrown (TypeError_read "undefined" prop)
  | VNull => Thrown (TypeError_read "null" prop)
  | VObj fields => Returned (default VUndefined (assoc prop fields))
  | VError _ message =>
      Returned (if String.eqb prop "message" then VStr message else VUndefined)
  | VBool _ | VNum _ | VStr _ | VArr _ => Returned VUndefined
  end.

(** Index read [v[i]]. *)
Definition js_index (v : jsval) (i : nat) : outcome jsval :=
  match v with
  | VUndefined => Thrown (TypeError_read "undefined" (pretty i))
  | VNull => Thrown (TypeError_read "null" (pretty i))
  | VArr items => Returned (default VUndefined (items !! i))
  | VStr s =>
      Returned (match String.get i s with
                | Some c => VStr (String c EmptyString)
                | None => VUndefined
                end)
  | VObj fields => Returned (default VUndefined (assoc (pretty i) fields))
  | VBool _ | VNum _ | VError _ _ => Returned VUndefined
  end.

(** Method call [v.toString()]. *)
Definition js_toString (v : jsval) : outcome jsval :=
  match v with
  | VUndefined => Thrown (TypeError_read "undefined" "toString")
  | VNull => Thrown (TypeError_read "null" "toString")
  | _ => Returned (VStr (js_String v))
  end.

(** ** The method enums of [constants/default.ts]

    A TypeScript string enum is an object from member names to strings;
    reading a member that the enum does not declare yields [undefined]. *)

Definition enum := list (string * string).

Definition member (e : enum) (name : string) : jsval :=
  match assoc name e with
  | Some s => VStr s
  | None => VUndefined
  end.

Definition DEFAULT_EIP155_METHODS : enum :=
  [ ("ETH_SEND_TRANSACTION", "eth_sendTransaction");
    ("ETH_SIGN_TRANSACTION", "eth_signTransaction");
    ("ETH_SIGN", "eth_sign");
    ("PERSONAL_SIGN", "personal_sign");
    ("ETH_SIGN_TYPED_DATA", "eth_signTypedData") ].

Definition DEFAULT_COSMOS_METHODS : enum :=
  [ ("COSMOS_SIGN_DIRECT", "cosmos_signDirect");
    ("COSMOS_SIGN_AMINO", "cosmos_signAmino") ].

Definition DEFAULT_SOLANA_METHODS : enum :=
  [ ("SOL_SIGN_TRANSACTION", "solana_signTransaction");
    ("SOL_SIGN_MESSAGE", "solana_signMessage") ].

Definition DEFAULT_CHIA_METHODS : enum :=
  [ ("CHIA_GET_WALLETS", "chia_getWallets");
    ("CHIA_GET_CAT_WALLET_INFO", "chia_getCATWalletInfo");
    ("CHIA_SEND_TRANSACTION", "chia_sendTransaction");
    ("CHIA_SPEND_CAT", "chia_spendCAT");
    ("CHIA_NEW_ADDRESS", "chia_getNextAddress");
    ("CHIA_LOG_IN", "chia_logIn");
    ("CHIA_SIGN_MESSAGE_BY_ADDRESS", "chia_signMessageByAddress");
    ("CHIA_SIGN_MESSAGE_BY_ID", "chia_signMessageById");
    ("CHIA_GET_WALLET_SYNC_STATUS", "chia_getSyncStatus");
    ("CHIA_GET_NFT_INFO", "chia_getNFTInfo");
    ("CHIA_GET_NFTS", "chia_getNFTs");
    ("CHIA_TAKE_OFFER", "chia_takeOffer");
    ("CHIA_CREATE_OFFER_FOR_IDS", "chia_createOfferForIds") ].

Definition DEFAULT_POLKADOT_METHODS : enum :=
  [ ("POLKADOT_SIGN_TRANSACTION", "polkadot_signTransaction");
    ("POLKADOT_SIGN_MESSAGE", "polkadot_signMessage") ].

Definition DEFAULT_NEAR_METHODS : enum :=
  [ ("NEAR_SIGN_IN", "near_signIn");
    ("NEAR_SIGN_OUT", "near_signOut");
    ("NEAR_GET_ACCOUNTS", "near_getAccounts");
    ("NEAR_SIGN_AND_SEND_TRANSACTION", "near_signAndSendTransaction");
    ("NEAR_SIGN_AND_SEND_TRANSACTIONS", "near_signAndSendTransactions") ].

Definition DEFAULT_ELROND_METHODS : enum :=
  [ ("ELROND_SIGN_TRANSACTION", "erd_signTransaction");
    ("ELROND_SIGN_TRANSACTIONS", "erd_signTransactions");
    ("ELROND_SIGN_MESSAGE", "erd_signMessage");
    ("ELROND_SIGN_LOGIN_TOKEN", "erd_signLoginToken") ].

(** ** Result records, events and state *)

Record IFormattedRpcResponse : Type := {
  method : option jsval;      (* [None]: the record has no [method] field *)
  address : option string;
  valid : bool;
  result : jsval;
}.

(** The [result] cell of [useState<IFormattedRpcResponse | null>()]. *)
Inductive result_cell : Type :=
| NoResult                        (* [undefined], the initial value *)
| NullResult                      (* [null] *)
| Stored (r : IFormattedRpcResponse).

Inductive event : Type :=
| EvSetPending (b : bool)
| EvSetResult (r : result_cell)
| EvConsoleError (err : jsval)
| EvRequest (topic chainId : string) (method params : jsval)
| EvPing (topic : string)
| EvNetwork (what : string).

Record state : Type := {
  pending : bool;
  rpcResult : result_cell;
  log : list event;
}.

Definition initial_state : state :=
  {| pending := false; rpcResult := NoResult; log := [] |}.

Definition Rpc (A : Type) : Type := Eff (list event) A.
Definition UI (A : Type) : Type := Eff state A.

Definition emit (e : event) : Rpc unit := λ l, (Returned tt, l ++ [e]).

(** A chain routine run from the wrapper: it sees and extends the log and
    cannot touch [pending] or [result]. *)
Definition lift {A} (m : Rpc A) : UI A :=
  λ s,
    match m (log s) with
    | (o, l') => (o, {| pending := pending s; rpcResult := rpcResult s; log := l' |})
    end.

Definition setPending (b : bool) : UI unit :=
  λ s, (Returned tt,
        {| pending := b; rpcResult := rpcResult s; log := log s ++ [EvSetPending b] |}).

Definition setResult (r : result_cell) : UI unit :=
  λ s, (Returned tt,
        {| pending := pending s; rpcResult := r; log := log s ++ [EvSetResult r] |}).

Definition console_error (err : jsval) : UI unit := lift (emit (EvConsoleError err)).

(** ** The context a render closes over *)

(** The session client.  [request] is the wallet's settled answer to a
    JSON-RPC request sent over the session transport. *)
Record Client : Type := {
  request : string → string → jsval → jsval → outcome jsval;
  client_ping : string → outcome unit;
}.

Record Session : Type := { topic : string }.

Record AssetData : Type := {
  symbol : string;
  name : string;
  balance : option string;
}.

Record PublicKey : Type := { toBase58 : string }.

Record Ctx : Type := {
  client : option Client;
  session : option Session;
  accounts : list string;
  balances : gmap string (list AssetData);
  solanaPublicKeys : option (gmap string PublicKey);
  chainData : gmap string (gmap string jsval);
  isTestnet : bool;
}.

(** ** The dispatch wrapper and the ping probe *)

Section Dispatch.
Context (ctx : Ctx).

Definition _createJsonRpcRequestHandler
    (rpcRequest : string → string → Rpc IFormattedRpcResponse)
    (chainId address : string) : UI unit :=
  match client ctx with
  | None => mthrow (Error "WalletConnect is not initialized")
  | Some _ =>
      match session ctx with
      | None => mthrow (Error "Session is not connected")
      | Some _ =>
          try_finally
            (try_catch
               (setPending true;;
                result ← lift (rpcRequest chainId address);
                setResult (Stored result))
               (λ err,
                  console_error err;;
                  setResult
                    (Stored {| method := None;
                               address := Some address;
                               valid := false;
                               result := message_or_self err |})))
            (setPending false)
      end
  end.

Definition ping : UI unit :=
  match client ctx with
  | None => mthrow (Error "WalletConnect is not initialized")
  | Some c =>
      match session ctx with
      | None => mthrow (Error "Session is not connected")
      | Some sess =>
          try_finally
            (try_catch
               (setPending true;;
                valid ← try_catch
                          (lift (emit (EvPing (topic sess)));;
                           settle (client_ping c (topic sess));;
                           mret true)
                          (λ _, mret false);
                setResult
                  (Stored {| method := Some (VStr "ping");
                             address := None;
                             valid := valid;
                             result := VStr (if valid : bool then "Ping succeeded"
                                             else "Ping failed") |}))
               (λ e, console_error e;; setResult NullResult))
            (setPending false)
      end
  end.
End Dispatch.

(** ** Library objects and the outside world *)

Record AccountMeta : Type := {
  isSigner : bool;
  isWritable : bool;
  pubkey : PublicKey;
}.

Record TransactionInstruction : Type := {
  programId : PublicKey;
  data : list N;
  keys : list AccountMeta;
}.

Record SolanaTransaction : Type := {
  feePayer : option PublicKey;
  recentBlockhash : string;
  instructions : list TransactionInstruction;
}.

Record ElrondAddress : Type := { bech32 : string }.

Record ElrondSignature : Type := { signature_hex : string }.

(** The fields [new ElrondTransaction({...})] is given, and the signature
    [applySignature] attaches. *)
Record ElrondTransaction : Type := {
  nonce : Z;
  value : string;
  receiver : ElrondAddress;
  sender : ElrondAddress;
  gasPrice : Z;
  gasLimit : Z;
  chainID : jsval;
  payload : option string;
  tx_signature : option ElrondSignature;
}.

Record SignableMessage : Type := {
  msg_address : ElrondAddress;
  msg_text : string;
  msg_signature : option ElrondSignature;
}.

(** What the imported libraries, the helpers of [../helpers] and the clock
    answer.  Each field stands for the call it is named after; a call that can
    throw or reject answers with an [outcome].  Constructors that only store
    their arguments ([new SolanaTransaction(...).add(...)],
    [new TransactionPayload], [new ElrondTransaction], [new SignableMessage],
    [UserVerifier.fromAddress]) are not in the record: the routines build the
    records above directly. *)
Record World : Type := {
  Date_now : N;
  (* [Math.floor(Math.random() * n)] *)
  Math_random_floor : nat → nat;
  JSON_stringify : jsval → jsval;
  encoding_utf8ToHex : string → string;
  (* helpers: the test transaction, built from live nonce and gas price *)
  formatTestTransaction : string → outcome jsval;
  (* [JSON.stringify(eip712.example)] *)
  eip712_example_json : jsval;
  BigNumber_from : jsval → outcome Z;
  utils_verifyMessage : string → jsval → outcome string;
  (* [utils.verifyTypedData] on the domain, types and message of
     [eip712.example] *)
  utils_verifyTypedData : jsval → outcome string;
  (* [EthTransaction.fromSerializedTx(x).verifySignature()] *)
  EthTransaction_verifySignature : jsval → outcome bool;
  formatDirectSignDoc :
    jsval → string → Z → Z → Z → string → jsval → outcome jsval;
  stringifySignDocValues : jsval → outcome jsval;
  verifyDirectSignature : string → jsval → jsval → outcome bool;
  verifyAminoSignature : string → jsval → jsval → outcome bool;
  (* [new Connection(clusterApiUrl(...)).getRecentBlockhash()], by
     [isTestnet] *)
  getRecentBlockhash : bool → outcome string;
  Keypair_generate_publicKey : PublicKey;
  SystemProgram_transfer :
    option PublicKey → PublicKey → Z → outcome TransactionInstruction;
  bs58_encode : list N → string;
  TextEncoder_encode : string → list N;
  (* [addSignature(key, Buffer.from(bs58.decode(sig)))] then
     [verifySignatures()] *)
  addSignature_verifySignatures :
    SolanaTransaction → option PublicKey → jsval → outcome bool;
  verifyMessageSignature : string → jsval → string → outcome bool;
  cryptoWaitReady : outcome bool;
  signatureVerify : string → jsval → string → outcome bool;
  Address_new : string → outcome ElrondAddress;
  Address_fromBech32 : string → outcome ElrondAddress;
  toPlainObject : ElrondTransaction → jsval;
  Signature_new : jsval → outcome ElrondSignature;
  (* [UserVerifier.fromAddress(a).verify(x)] *)
  UserVerifier_verify_transaction :
    ElrondAddress → ElrondTransaction → outcome bool;
  UserVerifier_verify_message :
    ElrondAddress → SignableMessage → outcome bool;
}.

(** ** The per-chain method tables *)

Section Tables.
Context (ctx : Ctx) (W : World).

(** [client!.request({ topic: session!.topic, chainId, request: { method,
    params } })] *)
Definition client_request (chainId : string) (method params : jsval) : Rpc jsval :=
  match client ctx with
  | None => mthrow (TypeError_read "undefined" "request")
  | Some c =>
      match session ctx with
      | None => mthrow (TypeError_read "undefined" "topic")
      | Some sess =>
          emit (EvRequest (topic sess) chainId method params);;
          settle (request c (topic sess) chainId method params)
      end
  end.

(** [accounts.find((account) => account === caipAccountAddress)], or the
    error thrown when it finds none. *)
Definition find_account (caipAccountAddress : string) : Rpc string :=
  match List.find (λ account, String.eqb account caipAccountAddress) (accounts ctx) with
  | Some account => mret account
  | None => mthrow (Error ("Account for " +:+ caipAccountAddress +:+ " not found"))
  end.

(** [chainData[namespace][reference]] *)
Definition chainData_at (namespace reference : jsval) : outcome jsval :=
  match chainData ctx !! js_String namespace with
  | None => Thrown (TypeError_read "undefined" (js_String reference))
  | Some refs => Returned (default VUndefined (refs !! js_String reference))
  end.

Definition is_undefined (v : jsval) : bool :=
  match v with VUndefined => true | _ => false end.

(** The chain-metadata check of the EVM and Cosmos message routines. *)
Definition require_chainData (chainId : string) : Rpc unit :=
  let parts := split ":" chainId in
  targetChainData ← settle (chainData_at (piece parts 0) (piece parts 1));
  if is_undefined targetChainData
  then mthrow (Error ("Missing chain data for chainId: " +:+ chainId))
  else mret tt.

Definition _verifyEip155MessageSignature
    (message : string) (signature : jsval) (address : string) : outcome bool :=
  match utils_verifyMessage W message signature with
  | Returned signer => Returned (String.eqb (toLowerCase signer) (toLowerCase address))
  | Thrown e => Thrown e
  end.

(** [balances[account][0].balance || "0"] *)
Definition first_balance (account : string) : outcome jsval :=
  match balances ctx !! account with
  | None => Thrown (TypeError_read "undefined" "0")
  | Some assets =>
      match assets !! 0%nat with
      | None => Thrown (TypeError_read "undefined" "balance")
      | Some asset =>
          Returned
            (match balance asset with
             | None => VStr "0"
             | Some b => if String.eqb b "" then VStr "0" else VStr b
             end)
      end
  end.

(** *** ethereumRpc *)

Definition ethereumRpc_testSendTransaction (chainId address : string)
    : Rpc IFormattedRpcResponse :=
  let caipAccountAddress := chainId +:+ ":" +:+ address in
  account ← find_account caipAccountAddress;
  emit (EvNetwork "formatTestTransaction");;
  tx ← settle (formatTestTransaction W account);
  balance_text ← settle (first_balance account);
  balance ← settle (BigNumber_from W balance_text);
  tx_gasPrice ← settle (js_get tx "gasPrice");
  gas_price ← settle (BigNumber_from W tx_gasPrice);
  tx_gasLimit ← settle (js_get tx "gasLimit");
  gas_limit ← settle (BigNumber_from W tx_gasLimit);
  if (balance <? gas_price * gas_limit)%Z
  then
    mret {| method := Some (member DEFAULT_EIP155_METHODS "ETH_SEND_TRANSACTION");
            address := Some address;
            valid := false;
            result := VStr "Insufficient funds for intrinsic transaction cost" |}
  else
    result ← client_request chainId
               (member DEFAULT_EIP155_METHODS "ETH_SEND_TRANSACTION") (VArr [tx]);
    mret {| method := Some (member DEFAULT_EIP155_METHODS "ETH_SEND_TRANSACTION");
            address := Some address;
            valid := true;
            result := result |}.

Definition ethereumRpc_testSignTransaction (chainId address : string)
    : Rpc IFormattedRpcResponse :=
  let caipAccountAddress := chainId +:+ ":" +:+ address in
  account ← find_account caipAccountAddress;
  emit (EvNetwork "formatTestTransaction");;
  tx ← settle (formatTestTransaction W account);
  signedTx ← client_request chainId
               (member DEFAULT_EIP155_METHODS "ETH_SIGN_TRANSACTION") (VArr [tx]);
  valid ← settle (EthTransaction_verifySignature W signedTx);
  mret {| method := Some (member DEFAULT_EIP155_METHODS "ETH_SIGN_TRANSACTION");
          address := Some address;
          valid := valid;
          result := signedTx |}.

Definition ethereumRpc_testSignPersonalMessage (chainId address : string)
    : Rpc IFormattedRpcResponse :=
  let message := "My email is john@doe.com - " +:+ pretty (Date_now W) in
  let hexMsg := encoding_utf8ToHex W message in
  let params := VArr [VStr hexMsg; VStr address] in
  signature ← client_request chainId
                (member DEFAULT_EIP155_METHODS "PERSONAL_SIGN") params;
  require_chainData chainId;;
  valid ← settle (_verifyEip155MessageSignature message signature address);
  mret {| method := Some (member DEFAULT_EIP155_METHODS "PERSONAL_SIGN");
          address := Some address;
          valid := valid;
          result := signature |}.

Definition ethereumRpc_testEthSign (chainId address : string)
    : Rpc IFormattedRpcResponse :=
  let message := "My email is john@doe.com - " +:+ pretty (Date_now W) in
  let hexMsg := encoding_utf8ToHex W message in
  let params := VArr [VStr address; VStr hexMsg] in
  signature ← client_request chainId
                (member DEFAULT_EIP155_METHODS "ETH_SIGN") params;
  require_chainData chainId;;
  valid ← settle (_verifyEip155MessageSignature message signature address);
  mret {| method := Some (js_plus_str (member DEFAULT_EIP155_METHODS "ETH_SIGN")
                                      " (standard)");
          address := Some address;
          valid := valid;
          result := signature |}.

Definition ethereumRpc_testSignTypedData (chainId address : string)
    : Rpc IFormattedRpcResponse :=
  let message := eip712_example_json W in
  let params := VArr [VStr address; message] in
  signature ← client_request chainId
                (member DEFAULT_EIP155_METHODS "ETH_SIGN_TYPED_DATA") params;
  signer ← settle (utils_verifyTypedData W signature);
  let valid := String.eqb (toLowerCase signer) (toLowerCase address) in
  mret {| method := Some (member DEFAULT_EIP155_METHODS "ETH_SIGN_TYPED_DATA");
          address := Some address;
          valid := valid;
          result := signature |}.

(** *** cosmosRpc *)

(** The [inputs] of the direct sign doc ([authInfoBytes] is not read). *)
Definition inputs_fee : jsval :=
  VArr [VObj [("amount", VStr "2000"); ("denom", VStr "ucosm")]].
Definition inputs_pubkey : string := "AgSEjOuOr991QlHCORRmdE5ahVKeyBrmtgoYepCpQGOW".
Definition inputs_gasLimit : Z := 200000.
Definition inputs_accountNumber : Z := 1.
Definition inputs_sequence : Z := 1.
Definition inputs_bodyBytes : string :=
  "0a90010a1c2f636f736d6f732e62616e6b2e763162657461312e4d736753656e6412700a2d636f736d6f7331706b707472653766646b6c366766727a6c65736a6a766878686c63337234676d6d6b38727336122d636f736d6f7331717970717870713971637273737a673270767871367273307a716733797963356c7a763778751a100a0575636f736d120731323334353637".

(** [formatDirectSignDoc(inputs.fee, ..., inputs.bodyBytes, reference)] *)
Definition direct_signDoc (chainId : string) : outcome jsval :=
  formatDirectSignDoc W inputs_fee inputs_pubkey inputs_gasLimit
    inputs_accountNumber inputs_sequence inputs_bodyBytes
    (piece (split ":" chainId) 1).

Definition cosmosRpc_testSignDirect (chainId address : string)
    : Rpc IFormattedRpcResponse :=
  signDoc ← settle (direct_signDoc chainId);
  signDocValues ← settle (stringifySignDocValues W signDoc);
  let params := VObj [("signerAddress", VStr address); ("signDoc", signDocValues)] in
  result ← client_request chainId
             (member DEFAULT_COSMOS_METHODS "COSMOS_SIGN_DIRECT") params;
  require_chainData chainId;;
  signature ← settle (js_get result "signature");
  valid ← settle (verifyDirectSignature W address signature signDoc);
  mret {| method := Some (member DEFAULT_COSMOS_METHODS "COSMOS_SIGN_DIRECT");
          address := Some address;
          valid := valid;
          result := signature |}.

(** The amino sign doc under test. *)
Definition amino_signDoc : jsval :=
  VObj [("msgs", VArr []);
        ("fee", VObj [("amount", VArr []); ("gas", VStr "23")]);
        ("chain_id", VStr "foochain");
        ("memo", VStr "hello, world");
        ("account_number", VStr "7");
        ("sequence", VStr "54")].

Definition cosmosRpc_testSignAmino (chainId address : string)
    : Rpc IFormattedRpcResponse :=
  let signDoc := amino_signDoc in
  let params := VObj [("signerAddress", VStr address); ("signDoc", signDoc)] in
  result ← client_request chainId
             (member DEFAULT_COSMOS_METHODS "COSMOS_SIGN_AMINO") params;
  require_chainData chainId;;
  signature ← settle (js_get result "signature");
  valid ← settle (verifyAminoSignature W address signature signDoc);
  mret {| method := Some (member DEFAULT_COSMOS_METHODS "COSMOS_SIGN_AMINO");
          address := Some address;
          valid := valid;
          result := signature |}.

(** *** solanaRpc *)

(** [throw new Error(error)] in the routines' own [catch]. *)
Definition rethrow_as_Error {A} (body : Rpc A) : Rpc A :=
  try_catch body (λ error, mthrow (new_Error error)).

(** [key.toBase58()] on a key that may be [undefined]. *)
Definition key_toBase58 (key : option PublicKey) : outcome string :=
  match key with
  | Some k => Returned (toBase58 k)
  | None => Thrown (TypeError_read "undefined" "toBase58")
  end.

Definition instruction_params (i : TransactionInstruction) : jsval :=
  VObj [("programId", VStr (toBase58 (programId i)));
        ("data", VStr (bs58_encode W (data i)));
        ("keys",
         VArr (List.map
                 (λ k, VObj [("isSigner", VBool (isSigner k));
                             ("isWritable", VBool (isWritable k));
                             ("pubkey", VStr (toBase58 (pubkey k)))])
                 (keys i)))].

Definition solanaRpc_testSignTransaction (chainId address : string)
    : Rpc IFormattedRpcResponse :=
  match solanaPublicKeys ctx with
  | None => mthrow (Error "Could not find Solana PublicKeys.")
  | Some publicKeys =>
      let senderPublicKey := publicKeys !! address in
      emit (EvNetwork "getRecentBlockhash");;
      blockhash ← settle (getRecentBlockhash W (isTestnet ctx));
      transfer ← settle (SystemProgram_transfer W senderPublicKey
                           (Keypair_generate_publicKey W) 1);
      let transaction :=
        {| feePayer := senderPublicKey;
           recentBlockhash := blockhash;
           instructions := [transfer] |} in
      rethrow_as_Error
        (feePayer58 ← settle (key_toBase58 (feePayer transaction));
         let params :=
           VObj [("feePayer", VStr feePayer58);
                 ("recentBlockhash", VStr (recentBlockhash transaction));
                 ("instructions",
                  VArr (List.map instruction_params (instructions transaction)))] in
         result ← client_request chainId
                    (member DEFAULT_SOLANA_METHODS "SOL_SIGN_TRANSACTION") params;
         signature ← settle (js_get result "signature");
         valid ← settle (addSignature_verifySignatures W transaction
                           senderPublicKey signature);
         mret {| method := Some (member DEFAULT_SOLANA_METHODS "SOL_SIGN_TRANSACTION");
                 address := Some address;
                 valid := valid;
                 result := signature |})
  end.

Definition solanaRpc_testSignMessage (chainId address : string)
    : Rpc IFormattedRpcResponse :=
  match solanaPublicKeys ctx with
  | None => mthrow (Error "Could not find Solana PublicKeys.")
  | Some publicKeys =>
      let senderPublicKey := publicKeys !! address in
      let message :=
        bs58_encode W
          (TextEncoder_encode W
             ("This is an example message to be signed - " +:+ pretty (Date_now W))) in
      rethrow_as_Error
        (sender58 ← settle (key_toBase58 senderPublicKey);
         let params := VObj [("pubkey", VStr sender58); ("message", VStr message)] in
         result ← client_request chainId
                    (member DEFAULT_SOLANA_METHODS "SOL_SIGN_MESSAGE") params;
         signature ← settle (js_get result "signature");
         valid ← settle (verifyMessageSignature W sender58 signature message);
         mret {| method := Some (member DEFAULT_SOLANA_METHODS "SOL_SIGN_MESSAGE");
                 address := Some address;
                 valid := valid;
                 result := signature |})
  end.

(** *** polkadotRpc *)

Definition polkadotRpc_testSignTransaction (chainId address : string)
    : Rpc IFormattedRpcResponse :=
  let transactionPayload :=
    "0x00019074686973206973206120746573742077616c6c65742d636f6e6e6563742072656d61726b05010000222400000d00000091b171bb158e2d3848fa23a9f1c25182fb8e20313b2c1eb49219da7a70ce90c3dc1f37ce7899cf20f63f5ea343f33e9e7b229c7e245049c2a7afc236861fc8b4" in
  rethrow_as_Error
    (let params := VObj [("address", VStr address);
                         ("transactionPayload", VStr transactionPayload)] in
     result ← client_request chainId
                (member DEFAULT_POLKADOT_METHODS "POLKADOT_SIGN_TRANSACTION") params;
     settle (cryptoWaitReady W);;
     signature ← settle (js_get result "signature");
     valid ← settle (signatureVerify W transactionPayload signature address);
     mret {| method := Some (member DEFAULT_POLKADOT_METHODS "POLKADOT_SIGN_TRANSACTION");
             address := Some address;
             valid := valid;
             result := signature |}).

Definition polkadotRpc_testSignMessage (chainId address : string)
    : Rpc IFormattedRpcResponse :=
  let message :=
    "This is an example message to be signed - " +:+ pretty (Date_now W) in
  rethrow_as_Error
    (let params := VObj [("address", VStr address); ("message", VStr message)] in
     result ← client_request chainId
                (member DEFAULT_POLKADOT_METHODS "POLKADOT_SIGN_MESSAGE") params;
     settle (cryptoWaitReady W);;
     signature ← settle (js_get result "signature");
     valid ← settle (signatureVerify W message signature address);
     mret {| method := Some (member DEFAULT_POLKADOT_METHODS "POLKADOT_SIGN_MESSAGE");
             address := Some address;
             valid := valid;
             result := signature |}).

(** *** chiaRpc

    Every entry sends one request and reports the stringified answer with
    [valid: true]; the entries differ in the enum member and in the
    parameters. *)

Definition chia_entry (method params : jsval) (chainId address : string)
    : Rpc IFormattedRpcResponse :=
  result ← client_request chainId method params;
  mret {| method := Some method;
          address := Some address;
          valid := true;
          result := JSON_stringify W result |}.

Definition chiaRpc_testGetWallets (chainId address : string) :=
  chia_entry (member DEFAULT_CHIA_METHODS "CHIA_GET_WALLETS")
    (VObj [("fingerprint", VStr address); ("includeData", VBool false)])
    chainId address.

Definition chiaRpc_testGetCATWalletInfo (chainId address : string) :=
  chia_entry (member DEFAULT_CHIA_METHODS "CHIA_GET_CAT_WALLET_INFO")
    (VObj [("fingerprint", VStr address);
           ("assetId",
            VStr "f17f88130c63522821f1a75466849354eee69c414c774bd9f3873ab643e9574d")])
    chainId address.

Definition chiaRpc_testSendTransaction (chainId address : string) :=
  chia_entry (member DEFAULT_CHIA_METHODS "CHIA_SEND_TRANSACTION")
    (VObj [("fingerprint", VStr address);
           ("address",
            VStr "txch1l8pwa9v3kphxr50vtgpc0dz2atvemryxzlngav9xnraxm39cxt2sxvpe3m");
           ("amount", VStr "10");
           ("fee", VStr "1")])
    chainId address.

Definition chiaRpc_testSpendCAT (chainId address : string) :=
  chia_entry (member DEFAULT_CHIA_METHODS "CHIA_SPEND_CAT")
    (VObj [("fingerprint", VStr address);
           ("walletId", VNum 17);
           ("address",
            VStr "txch1tnevlkzj9tlg84prxs4674pjtrzepuw2cqr0zg6qud8nfj0nk9yql3umcu");
           ("amount", VStr "1000");
           ("fee", VStr "6500000")])
    chainId address.

Definition chiaRpc_testNewAddress (chainId address : string) :=
  chia_entry (member DEFAULT_CHIA_METHODS "CHIA_NEW_ADDRESS")
    (VObj [("fingerprint", VStr address)])
    chainId address.

Definition chiaRpc_testLogIn (chainId address : string) :=
  chia_entry (member DEFAULT_CHIA_METHODS "CHIA_LOG_IN")
    (VObj [("fingerprint", VStr address)])
    chainId address.

Definition chiaRpc_testSignMessageByAddress (chainId address : string) :=
  chia_entry (member DEFAULT_CHIA_METHODS "CHIA_SIGN_MESSAGE_BY_ADDRESS")
    (VObj [("fingerprint", VStr address);
           ("message", VStr "This is a testsign in message by address");
           ("address",
            VStr "txch1l8pwa9v3kphxr50vtgpc0dz2atvemryxzlngav9xnraxm39cxt2sxvpe3m")])
    chainId address.

Definition chiaRpc_testSignMessageById (chainId address : string) :=
  chia_entry (member DEFAULT_CHIA_METHODS "CHIA_SIGN_MESSAGE_BY_ID")
    (VObj [("fingerprint", VStr address);
           ("message", VStr "This is a test sign in message by id");
           ("id",
            VStr "nft1049g9t9ts9qrc9nsd7ta0kez847le6wz59d28zrkrmhj8xu7ucgq7uqa7z")])
    chainId address.

Definition chiaRpc_testGetWalletSyncStatus (chainId address : string) :=
  chia_entry (member DEFAULT_CHIA_METHODS "CHIA_GET_WALLET_SYNC_STATUS")
    (VObj [("fingerprint", VStr address)])
    chainId address.

Definition chiaRpc_testGetNFTInfo (chainId address : string) :=
  chia_entry (member DEFAULT_CHIA_METHODS "CHIA_GET_NFT_INFO")
    (VObj [("fingerprint", VStr address);
           ("coinId",
            VStr "0xcbca6b5c01d25273a1d173fd6ea759e0db42a6551d66143bab0be61df7e2e74f")])
    chainId address.

Definition chiaRpc_testGetNFTs (chainId address : string) :=
  chia_entry (member DEFAULT_CHIA_METHODS "CHIA_GET_NFTS")
    (VObj [("fingerprint", VStr address);
           ("walletIds", VArr [VNum 3; VNum 4; VNum 5; VNum 8]);
           ("num", VNum 100);
           ("startIndex", VNum 0)])
    chainId address.

Definition take_offer_fixture : string :=
  "offer1qqr83wcuu2rykcmqvpsxvgqqcfz3ax9lz9sshv6f87766v9elfvk4mq7pu94rhtr0dm4ehmp0xf0xtzvrk7f6wj6lw8adl4rkhlk3mflttacl4h7lur64as8zlhqhn8h04883476dz7x6mny6jzdcga33n4s8n884cxcekcemz6mk3jk4v924mrr0krnqnmjjzrw93l9y95jmy6rmc7ehclg20h8mumnh02ndeuhuxldp2nzk3z5z38hnugj9v6qjw54su6lh6a92e586jpultw4z9a7uz4dl09kz7dvwhraaxt83e08gqe2exx6l0dkxjrhxg2mh0jfd2vd0a3k684lnkvwd0hmwluu4300x3veuvgz607sug55sykzf4ygv8gvl7auxuhdpft96wa9d8clpww5605ux9vp0039k0cs05l8rdcawka3xe3yd9ct3shp0qx8ln58yqvcuzg9jtsqf8dsh6jhryz7l0mm78qmm5uudjd7uf9eaul8y04p8lpzg4kuafm09zedxhel7tastpct0jtkg0rrrvtewf6kclzezcycvwehhgr0y3kdwcf4q4rwlm7h9s0mp7j548sppyra90h9rwknnd9uem92aw822nmm5fghjluj6wtm6pmz26s979lhfygza5fvp6pzshsmkjqpnnspwt8sn504aeslktzvastqmaha7p4xh3m9dj24ewfym4haxrcg7ev70syfvt62lu053npg9y5j3dkj6a855n9tf39v6n90ff82e2jg95657twge56jj27f9ex5c2f24vkzuvehe9y642j2egc55tfteq5yjnp4evmrtt7vfzhuc2es689jcjpt6m95k2ef9myj7jjvfl2uhjwve0ttwdpjxrfjhjztquaz5c7pkv579es9hua3f0l0daydaajx8036c7hh42nyjje53cnfjm90xz2wn7hlhu5306y6yndt5f4t8qlsl6quepxxv5m3re5p4t9cq3zwve3vwrltae8yz78fffa7h984x9jhsc000nlppyl63mnn302hl4vj048egmkpqtm4l9ahnla2y3an0nkcl8umrd28t775n9wah43wnes88hn6uhevcj7hhdg5hvk35chvrf3wss32asvmk0pv8dlll38fm3hla3nndupa4h6shtz7mvnpt0humn5ek92x8jx2tg9qyk5qse98mmlyld7r0wkktj5kpyz3ey8gm5m7lzdacqtej7afe8yswnn9hykz5jrmxfa7j38p4s62rt0t0xhfmxd3jm6l4qs46gfkd06c7hswpdhze7e0dsyka69jkjc9xzdthsmktu9d3cqd35qm4rehuhx7xdsj07nkrjmk07g6r6dlruu3nd7t4hkpcwuyt46acppxf4vu7akneezy5gmc607csrq4krtqvjy2l7l7pl870dhkxlqkmke7tl42kremfalkzg4a8kvhnck7ewpculul60u2j70l7murqs49pq7dluzlchtxjdm0lctnlx5nml0pzs0e85l4clj6c48rnc937wt6vhau9f4xj4q9tahlz7zrcwwgl3jw9em89098tynym90l5frdeflvmadx24eujpgltlgcstcazp26dthzqunr4tlvpvgdea2vvl3lm46mdem460m7keqh4nmk9wmh3f0ermstqhzse73dqahlaek7w4llp7k3d4w2mmjzd70p2kgt9jx956v0hl39cfzs0aj2f9hdmwwqldqdcg47zcejxzuwa08ju0pu89nsmxaqunmpgl68fxhrwkdhjchn4gt6yv4826v7fvhc7e8ntlwm4zn8d0tjw80xlh3vd2s2qp3wtwtsu27etv".

Definition chiaRpc_testTakeOffer (chainId address : string) :=
  chia_entry (member DEFAULT_CHIA_METHODS "CHIA_TAKE_OFFER")
    (VObj [("fingerprint", VStr address);
           ("offer", VStr take_offer_fixture);
           ("fee", VNum 0)])
    chainId address.

Definition chiaRpc_testCreateOfferForIds (chainId address : string) :=
  chia_entry (member DEFAULT_CHIA_METHODS "CHIA_CREATE_OFFER_FOR_IDS")
    (VObj [("fingerprint", VStr address);
           ("walletIdsAndAmounts",
            VObj [("17", VNum (-1234));
                  ("38a0dd823db068c6169e1e7e060e6a386031b9b145510d5a9b4610212383fbe9",
                   VNum 1)]);
           ("driverDict", VObj []);
           ("disableJSONFormatting", VBool true)])
    chainId address.

Definition chiaRpc_testUnknownTestCommand (chainId address : string) :=
  chia_entry (member DEFAULT_CHIA_METHODS "CHIA_UNKNOWN_TEST_COMMAND")
    (VObj [("fingerprint", VStr address);
           ("test",
            VObj [("amount", VNum 1);
                  ("38a0dd823db068c6169e1e7e060e6a386031b9b145510d5a9b4610212383fbe9",
                   VNum 1)]);
           ("driverDict", VObj []);
           ("disableJSONFormatting", VBool true)])
    chainId address.

Definition notification_offers : list string :=
  [ "offer1qqr83wcuu2rykcmqvpsxzgqqemhmlaekcenaz02ma6hs5w600dhjlvfjn477nkwz369h88kll73h37fefnwk3qqnz8s0lle0urdv0ntp27et7m86s8rmywl8rvld5udz2axnsnlxdwx7lw5a6erdh25pf24x5alshmgfv0rpwe5majfhahf7wf60vnc8elw3afaf3aw7cqsvv8v3lad5tvche3sqqkanl457a4ancgw4hqnhyumme7evh9mva7j8p6alefs6886x5xwuu8d0t9lnn9rt0urtu6w3jwcvkck4wkld009kemm0k76ecr26cxv5whq7wh7cw3y7mqe93aydxm0yvxm05wxm05wxmd5wxrfa8kxndhhg6auqx9lwp0x0wl2w0rta569ud4hxf4yyms3mrr8tq0xw0tsd3nd3nk94hdr9d2c24tkgdms9lwh9n9m78qrel8t2u0akeylv4m6mtrmhm8aaa8d4elcvmt5xkhg25q4esgduu6lscqrxlk8eftwv5jldm00xsuadjd9j8he7wadwykn3ud34tnfjcw8jk9e72kk7vh4jhnhu3kmd59rrk0g096ude9strwls2xwsqp5mpl2lgz5wmaaln8s3pvycyk5que9gxyg7mx3x6c25p9fklut6culrv57z0mtsndslvarpk67uhdnnwd5ylhc7ncjmw2yy58gjtr43qk5v4lhls247lc5l5jkdnhxt77jcg46anjpajcvjanwzkmsaka9kvwg5j749kwjzztl07pgd39ul4rv0d66waravu8l09s3xvne5hpwadg7axmghxyhkz9agmrslvlup04q7xn5p4lus7kpeg00mshe62lew3lkku4a3mnfle3ll4edqa6sc4z8lf58rxxl79u5ts6lqlx8rh68jn2pdj0f0h0z43pgvvs095txax707kmkh8tqhw6dhspmpz650l405p2z9qckyf95ptjke2u4lllxnkl2f7hx9k3m7ez28kvnnax7drk4l2wnls75z8z9lhjmuytpt8xtp5d5q8xqyqczzrucjutnk0ppa87me0u7sk7fwvmm6rwlnzj8086mxnnw23573lkexmpd7ss263fq2x3jm323jm3w3jm3xsjm3kjjlsla555ud55suagkut60p6fxz5vu9977nms7ya46djs6nvhw3cwd3zz25k5uu9lh0ut4a0hpfnxp9hkf2w6enhawne7hrerz7725c94zahlcttnpftaf8qmkus7ajland0d48uek6nn39ghue0h6xlmul6u0278mnm89s5evw8eyt000maepewml2r8u042fvswh3ykeavzk70elw6w4h5w389h7mz0l3wjpdeex0lmhms7ah2ek74ndcl84er4jalm8xwtcxz20r75yehxmm7a0gzdn2zewpylnflmmhx602ucfe2um843jrk2dmd0hgtkylvkrmetyjeueyadlsy64q23dge5pmtrycvcw5zaurnd66qcqsupuf4m0sk768k7mel0sul7lc3772lyh7x4ghqsk8ta6mmj0uf6ptrpzvq2mv9wq0w8wxgxrpax22c8sdhs45x7zvj4acjagfqdgtmj0lzmvm82gvjz8y3qls5mldhklkradtvwucx4rh2k7alhnpdzd4hk0dzvhmavlnlen9d34jq0h4fuuh968ljwszcfkkje9576c5wuwahnghlcj7z5pq37xwd55t5uw5ktaap0wnva7nhnwd2dmhe36rnerp7ad7cka7s7x8lsvyraxd0xqrs490mf6d0eed4ukjmn5vw7mdstnz0dc7hhcruvf2tlt55c6tnx6hnm7f9d4szl6ru8cqr0k6j6";
    "offer1qqr83wcuu2rykcmqvpsxygqqemhmlaekcenaz02ma6hs5w600dhjlvfjn477nkwz369h88kll73h37fefnwk3qqnz8s0lle0lzshdh4w3z5jnfd9vr922ag9t0z2dmwuhjn03fzx463wze5w5q7cvs8tzeug3m7wwvkmqnhw24uay8fwmeldh2hcsfe3ymmdel9d5hw6p4n98jh7k7txgpt4xzq2mxwhmq66xkwn395nw7mx0ntwlwz8fn495jn7fy83n63auajfgk60a0c4ck097sew5900fal3dduurk895jtnu7cc34wywn78cvx96xzgjvgzrfacev8ggvd0yxua9qve628e8ua9zvsyya9zq6tmg87j4glql4mj704cw7dfxmwnn5j00h28ecnlg3uccj99hh2w06c62eh7luzs7zjwr00q50ch6n6w9uwpnmhm7nelzmma46hwvty20jlexruc40l5ssz770u59fusvfqufraevma5umg0yw3th032557aawt9ch8xkljwcswmj4g2hyqt3lg7jxw6yjqdr6veuyan6q6w7q93d7xwpuhlxr6evtnkpv80kahsx5678w47f2n9eynwklsclrrnyne7qn930f0lpujxf9y5zs29h60tu7je29yhustjtf48atjkfen9adn3dfq4avnjtfj4y6jkvfjhrzteg4g65u27v9nyvu2esfyhu7jpvxuejsjkwfexyudfnf5mu6vj0x4yza2jfxnxzcj7wfcerxv4dx2ka2d43x8fzhj2tleluqznyzngqv2scqm6xp35zsw04ewer7g27k437zku98se3gxvwm88t565muml7s4je6y0w6wvhla07l6n9mgx0zf574v4vut7mmls8hj57gdvsd9qmusg8j6dc4u6pywfugfppxvmk8sxulafg7yx8ld35gul6vm2tul850rn2ah6ajr455r7z5ujx5ttezmcq79l2l6amelw4zc7ehet20m7deh9p40d2dnhvm2mhdug9nteaw2ukve0thhuv5ky3e8w8g0y5ngkn0x3dy7q9mhe8uag63mv8ngkwxs02tmp6h0a4fe062sxayg0t7ctf6w8ww54dlcm23d6utn7vs6pc4mfhm4f4dqefsw2xx6za6hgwnvwsaxc5z0sa760u7hdsq4xa7tla2twxn4hxuwjl0t4ge8ttgder9zsluuxmvkxkwdtga87qlnjpj56rzlcp8xhsq3kkrwmp54xpqeh4s4m8t870kewmht739hc7um6vlhrwn67djud98mfm8y6ms5xh6r9lmahasxth3f8av0pja6ma8k0er0t0ds22csr9t6e7u9vl40lqlqdnldfz2hmu5vhzja4wucj3z3ljyh4xr3eh0l6pjhfkvqhxe4alyqhvxtgrs9wccrq7vxvfqyd7qkjqd86ptys4sq7r4qe2gxr3yc7a0laluzj0r70mhr077nhea7fz7thkuygs6f2033tk2ak723vawhvurjmzngmcdsnjaj8mnlff9a2vmm9km30uexlk5ajaeh0slkdxahnvjrm95kkc7jjjrgl2mdeye8l0tdau54kwhcdwpvm9aguwlamv6fu89mgjreuryemdevx4m7e8al566yjhrlx735nexd0zp3nx3wptm3eryhj8amtm6m6uykhjkd8qzs7m72mk7wz6c";
    "offer1qqr83wcuu2rykcmqvpsxygqqemhmlaekcenaz02ma6hs5w600dhjlvfjn477nkwz369h88kll73h37fefnwk3qqnz8s0lle0npc0fqmxvh9emwaxm9a7ak28agj7uenvvwlkchjk0m3d3s30354n80cqj4z02dfytuu8a8jmgfkhhl7zllmm6tp8yat5mc96cen4zknmdehkz6k0lltf9t9qpcrtqdfmhy3799j8etzhy98m8jal2mdkekv6yntmqve3y6a9nyu84l0ke22cw7w73wv8ckh2wxnh49awt8t0mtejmunff255hecapnk6de6xe7lx38gdscuyg50a9yxlapzvn6zye8larzvjyyu9zqjfmv9754ceqhhm77l3cx7a88rvn0hzfw008eeragflcgj9dh82wmegktf470lj7kr42dsgyn7akvxlealu3u6y4h90hel7f5g8xejudr29a654xl7aktltec8asafztnuqsspknhlj3htpckj7vaj4whr44faamy5te07fd8padza3y6s4wtsnzw3agwdsgvp685ehefm8cqyhasgzmlu7ze07y997c8qv7m7lvmtqef4k092uk5kdjexapupl7k8xexrkp7dz7nlcrpyvj2fgyc3t0h7medyju2f0egky732tm8xvh3k0mnyzk330mfxykn92f4xvus9w8y4jft3mfskustk2cq5nunefe4rzywfm9e8vcnjygg7nwnfneu6yj0629zjy60x29e8uys3j85e26d986y6txw7c9085lurmcszxq9k6pqnpgq8kvtrckcjvawf4el9n9pf485slgl0ssmr2v06lue2vcmrlnfu9mctdecwkpap5u5p8m9jg2w0k2908ul7nlczdykhcznqrlgxn9wxu2jwqwx5e9shqrydery9kv44apmltl25fxwn74dl5mus087j0dxcc2zs4923yyryhx349dff7snzl40ewdull23v0vmua58elxum636hk4yemhd4dt57vre4u7h9wtxvh4emkx2tzg7nlz5rj6t5rfhhgxs0qralur7wuvgeknm5r8rg898acatn72kuhu9vrwjy04lg9yl8rh8w2klud5gja79el8gdqv2a5ma7565sv5c89rpdpwat58fk8gwnv6p8c0ld8wdtkcqwn7a9l74phnt6mjw8fl44j4vn44kx5sj4g07wrvk0rt9x45whlsde3qe2d3305pnntczgmtphdqc2mpsgm6624j4hl8mvlvm4lcjmuwwdax0mekfe0xewwnna5anj9vc2rtlp6la6mw6rdmc5nwk8cewadw3m0a3h48kc99vgpjhay7wxklchaslavte7g6j5uu2kcjdacwm4uuly3uqttfqdtuahyvl464n0df9v7gfsf0qwx58qqup3keaqqekqgmupy9ga0jzkqpmx3z92qjv5urr3laklltuswadhs70k7u9tl3uyd66ymk6407ku6hhjhcnhre36svm8na7wl548crxtxxemxaylwav866d6la6g346jsaqt278la0afat8ad22tp49h022akz6g30aart9z4ndnta0u6caygjhsjec6uztlmnj7dajcdd3urv4a6dee50lcqjlrng9jx2fqh00aset4gdwa79rhxnqvzm9w30f29hg04ml6gyvcqtqhl64q078tkf" ].

Definition chiaRpc_testShowOfferDataNotification (chainId address : string) :=
  chia_entry (member DEFAULT_CHIA_METHODS "CHIA_SHOW_NOTIFICATION")
    (VObj [("fingerprint", VStr address);
           ("type", VStr "offer");
           ("offerData",
            piece notification_offers
              (Math_random_floor W (length notification_offers)));
           ("driverDict", VObj []);
           ("disableJSONFormatting", VBool true)])
    chainId address.

Definition chiaRpc_testShowAnnouncementNotification (chainId address : string) :=
  chia_entry (member DEFAULT_CHIA_METHODS "CHIA_SHOW_NOTIFICATION")
    (VObj [("fingerprint", VStr address);
           ("type", VStr "announcement");
           ("message", VStr "This is a test announcement");
           ("url", VStr "https://www.chia.net");
           ("allFingerprints", VBool true);
           ("driverDict", VObj []);
           ("disableJSONFormatting", VBool true)])
    chainId address.

(** *** nearRpc *)

(** [arr.map((x) => x.prop)] *)
Fixpoint get_each (items : list jsval) (prop : string) : outcome (list jsval) :=
  match items with
  | [] => Returned []
  | x :: rest =>
      match js_get x prop with
      | Thrown e => Thrown e
      | Returned v =>
          match get_each rest prop with
          | Thrown e => Thrown e
          | Returned vs => Returned (v :: vs)
          end
      end
  end.

Definition js_map_get (what : string) (v : jsval) (prop : string)
    : outcome (list jsval) :=
  match v with
  | VArr items => get_each items prop
  | VUndefined => Thrown (TypeError_read "undefined" "map")
  | VNull => Thrown (TypeError_read "null" "map")
  | _ => Thrown (TypeError_not_a_function (what +:+ ".map"))
  end.

Definition guest_book_transaction (address text : string) : jsval :=
  VObj [("signerId", VStr address);
        ("receiverId", VStr "guest-book.testnet");
        ("actions",
         VArr [VObj [("type", VStr "FunctionCall");
                     ("params",
                      VObj [("methodName", VStr "addMessage");
                            ("args", VObj [("text", VStr text)]);
                            ("gas", VStr "30000000000000");
                            ("deposit", VStr "0")])]])].

Definition nearRpc_testSignAndSendTransaction (chainId address : string)
    : Rpc IFormattedRpcResponse :=
  let method := member DEFAULT_NEAR_METHODS "NEAR_SIGN_AND_SEND_TRANSACTION" in
  result ← client_request chainId method
             (VObj [("transaction",
                     guest_book_transaction address "Hello from Wallet Connect!")]);
  transaction ← settle (js_get result "transaction");
  mret {| method := Some method;
          address := Some address;
          valid := true;
          result := JSON_stringify W transaction |}.

Definition nearRpc_testSignAndSendTransactions (chainId address : string)
    : Rpc IFormattedRpcResponse :=
  let method := member DEFAULT_NEAR_METHODS "NEAR_SIGN_AND_SEND_TRANSACTIONS" in
  result ← client_request chainId method
             (VObj [("transactions",
                     VArr [guest_book_transaction address
                             "Hello from Wallet Connect! (1/2)";
                           guest_book_transaction address
                             "Hello from Wallet Connect! (2/2)"])]);
  transactions ← settle (js_map_get "result" result "transaction");
  mret {| method := Some method;
          address := Some address;
          valid := true;
          result := JSON_stringify W (VArr transactions) |}.

(** *** elrondRpc *)

Definition applySignature (t : ElrondTransaction) (s : ElrondSignature)
    : ElrondTransaction :=
  {| nonce := nonce t; value := value t; receiver := receiver t;
     sender := sender t; gasPrice := gasPrice t; gasLimit := gasLimit t;
     chainID := chainID t; payload := payload t; tx_signature := Some s |}.

Definition applySignature_message (m : SignableMessage) (s : ElrondSignature)
    : SignableMessage :=
  {| msg_address := msg_address m; msg_text := msg_text m;
     msg_signature := Some s |}.

(** [arr.join(sep)] *)
Definition js_join (sep : string) (items : list jsval) : string :=
  String.concat sep
    (List.map (λ x, match x with
                    | VUndefined | VNull => ""
                    | _ => js_String x
                    end) items).

Definition elrondRpc_testSignTransaction (chainId address : string)
    : Rpc IFormattedRpcResponse :=
  let reference := piece (split ":" chainId) 1 in
  userAddress ← settle (Address_new W address);
  receiver ← settle (Address_fromBech32 W address);
  let testTransaction :=
    {| nonce := 1; value := "10000000000000000000";
       receiver := receiver; sender := userAddress;
       gasPrice := 1000000000; gasLimit := 50000;
       chainID := reference; payload := Some "testdata";
       tx_signature := None |} in
  let transaction := toPlainObject W testTransaction in
  rethrow_as_Error
    (result ← client_request chainId
                (member DEFAULT_ELROND_METHODS "ELROND_SIGN_TRANSACTION")
                (VObj [("transaction", transaction)]);
     raw ← settle (js_get result "signature");
     signature ← settle (Signature_new W raw);
     valid ← settle (UserVerifier_verify_transaction W userAddress
                       (applySignature testTransaction signature));
     text ← settle (js_toString raw);
     mret {| method := Some (member DEFAULT_ELROND_METHODS "ELROND_SIGN_TRANSACTION");
             address := Some address;
             valid := valid;
             result := text |}).

(** The [reduce] of [testSignTransactions]: every transaction gets its
    signature applied; the verifier runs only while [acc] is still true. *)
Fixpoint verify_batch (userAddress : ElrondAddress) (result : jsval)
    (txs : list ElrondTransaction) (index : nat) (acc : bool) : Rpc bool :=
  match txs with
  | [] => mret acc
  | current :: rest =>
      signatures ← settle (js_get result "signatures");
      entry ← settle (js_index signatures index);
      raw ← settle (js_get entry "signature");
      signature ← settle (Signature_new W raw);
      acc' ← (if acc
              then settle (UserVerifier_verify_transaction W userAddress
                             (applySignature current signature))
              else mret false);
      verify_batch userAddress result rest (S index) acc'
  end.

Definition elrond_batch (userAddress r1 r2 r3 : ElrondAddress) (reference : jsval)
    : list ElrondTransaction :=
  [ {| nonce := 1; value := "10000000000000000000";
       receiver := r1; sender := userAddress;
       gasPrice := 1000000000; gasLimit := 50000;
       chainID := reference; payload := Some "testdata";
       tx_signature := None |};
    {| nonce := 2; value := "20000000000000000000";
       receiver := r2; sender := userAddress;
       gasPrice := 1000000000; gasLimit := 50000;
       chainID := reference; payload := None;
       tx_signature := None |};
    {| nonce := 3; value := "300000000000000000";
       receiver := r3; sender := userAddress;
       gasPrice := 1000000000; gasLimit := 50000;
       chainID := reference; payload := Some "third";
       tx_signature := None |} ].

Definition elrondRpc_testSignTransactions (chainId address : string)
    : Rpc IFormattedRpcResponse :=
  let reference := piece (split ":" chainId) 1 in
  userAddress ← settle (Address_new W address);
  r1 ← settle (Address_fromBech32 W address);
  r2 ← settle (Address_fromBech32 W address);
  r3 ← settle (Address_fromBech32 W address);
  let batch := elrond_batch userAddress r1 r2 r3 reference in
  let transactions := VArr (List.map (toPlainObject W) batch) in
  rethrow_as_Error
    (result ← client_request chainId
                (member DEFAULT_ELROND_METHODS "ELROND_SIGN_TRANSACTIONS")
                (VObj [("transactions", transactions)]);
     valid ← verify_batch userAddress result batch 0 true;
     signatures ← settle (js_get result "signatures");
     resultSignatures ← settle (js_map_get "result.signatures" signatures "signature");
     mret {| method := Some (member DEFAULT_ELROND_METHODS "ELROND_SIGN_TRANSACTIONS");
             address := Some address;
             valid := valid;
             result := VStr (js_join ", " resultSignatures) |}).

Definition elrondRpc_testSignMessage (chainId address : string)
    : Rpc IFormattedRpcResponse :=
  userAddress ← settle (Address_new W address);
  let testMessage :=
    {| msg_address := userAddress;
       msg_text := "Sign this message - " +:+ pretty (Date_now W);
       msg_signature := None |} in
  rethrow_as_Error
    (result ← client_request chainId
                (member DEFAULT_ELROND_METHODS "ELROND_SIGN_MESSAGE")
                (VObj [("address", VStr address);
                       ("message", VStr (msg_text testMessage))]);
     raw ← settle (js_get result "signature");
     signature ← settle (Signature_new W raw);
     valid ← settle (UserVerifier_verify_message W userAddress
                       (applySignature_message testMessage signature));
     text ← settle (js_toString raw);
     mret {| method := Some (member DEFAULT_ELROND_METHODS "ELROND_SIGN_MESSAGE");
             address := Some address;
             valid := valid;
             result := text |}).

(** *** The tables as one enumeration *)

Inductive entry : Type :=
| EthSendTransaction | EthSignTransaction | EthEthSign
| EthSignPersonalMessage | EthSignTypedData
| CosmosSignDirect | CosmosSignAmino
| SolanaSignMessage | SolanaSignTransaction
| PolkadotSignMessage | PolkadotSignTransaction
| NearSignAndSendTransaction | NearSignAndSendTransactions
| ElrondSignMessage | ElrondSignTransaction | ElrondSignTransactions
| ChiaGetWallets | ChiaGetCATWalletInfo | ChiaSendTransaction | ChiaSpendCAT
| ChiaNewAddress | ChiaLogIn | ChiaSignMessageByAddress | ChiaSignMessageById
| ChiaGetWalletSyncStatus | ChiaGetNFTInfo | ChiaGetNFTs | ChiaTakeOffer
| ChiaCreateOfferForIds | ChiaUnknownTestCommand
| ChiaShowOfferDataNotification | ChiaShowAnnouncementNotification.

Definition routine (e : entry) : string → string → Rpc IFormattedRpcResponse :=
  match e with
  | EthSendTransaction => ethereumRpc_testSendTransaction
  | EthSignTransaction => ethereumRpc_testSignTransaction
  | EthEthSign => ethereumRpc_testEthSign
  | EthSignPersonalMessage => ethereumRpc_testSignPersonalMessage
  | EthSignTypedData => ethereumRpc_testSignTypedData
  | CosmosSignDirect => cosmosRpc_testSignDirect
  | CosmosSignAmino => cosmosRpc_testSignAmino
  | SolanaSignMessage => solanaRpc_testSignMessage
  | SolanaSignTransaction => solanaRpc_testSignTransaction
  | PolkadotSignMessage => polkadotRpc_testSignMessage
  | PolkadotSignTransaction => polkadotRpc_testSignTransaction
  | NearSignAndSendTransaction => nearRpc_testSignAndSendTransaction
  | NearSignAndSendTransactions => nearRpc_testSignAndSendTransactions
  | ElrondSignMessage => elrondRpc_testSignMessage
  | ElrondSignTransaction => elrondRpc_testSignTransaction
  | ElrondSignTransactions => elrondRpc_testSignTransactions
  | ChiaGetWallets => chiaRpc_testGetWallets
  | ChiaGetCATWalletInfo => chiaRpc_testGetCATWalletInfo
  | ChiaSendTransaction => chiaRpc_testSendTransaction
  | ChiaSpendCAT => chiaRpc_testSpendCAT
  | ChiaNewAddress => chiaRpc_testNewAddress
  | ChiaLogIn => chiaRpc_testLogIn
  | ChiaSignMessageByAddress => chiaRpc_testSignMessageByAddress
  | ChiaSignMessageById => chiaRpc_testSignMessageById
  | ChiaGetWalletSyncStatus => chiaRpc_testGetWalletSyncStatus
  | ChiaGetNFTInfo => chiaRpc_testGetNFTInfo
  | ChiaGetNFTs => chiaRpc_testGetNFTs
  | ChiaTakeOffer => chiaRpc_testTakeOffer
  | ChiaCreateOfferForIds => chiaRpc_testCreateOfferForIds
  | ChiaUnknownTestCommand => chiaRpc_testUnknownTestCommand
  | ChiaShowOfferDataNotification => chiaRpc_testShowOfferDataNotification
  | ChiaShowAnnouncementNotification => chiaRpc_testShowAnnouncementNotification
  end.

(** The enum member an entry's routine puts in the request it sends. *)
Definition wire_method (e : entry) : jsval :=
  match e with
  | EthSendTransaction => member DEFAULT_EIP155_METHODS "ETH_SEND_TRANSACTION"
  | EthSignTransaction => member DEFAULT_EIP155_METHODS "ETH_SIGN_TRANSACTION"
  | EthEthSign => member DEFAULT_EIP155_METHODS "ETH_SIGN"
  | EthSignPersonalMessage => member DEFAULT_EIP155_METHODS "PERSONAL_SIGN"
  | EthSignTypedData => member DEFAULT_EIP155_METHODS "ETH_SIGN_TYPED_DATA"
  | CosmosSignDirect => member DEFAULT_COSMOS_METHODS "COSMOS_SIGN_DIRECT"
  | CosmosSignAmino => member DEFAULT_COSMOS_METHODS "COSMOS_SIGN_AMINO"
  | SolanaSignMessage => member DEFAULT_SOLANA_METHODS "SOL_SIGN_MESSAGE"
  | SolanaSignTransaction => member DEFAULT_SOLANA_METHODS "SOL_SIGN_TRANSACTION"
  | PolkadotSignMessage => member DEFAULT_POLKADOT_METHODS "POLKADOT_SIGN_MESSAGE"
  | PolkadotSignTransaction =>
      member DEFAULT_POLKADOT_METHODS "POLKADOT_SIGN_TRANSACTION"
  | NearSignAndSendTransaction =>
      member DEFAULT_NEAR_METHODS "NEAR_SIGN_AND_SEND_TRANSACTION"
  | NearSignAndSendTransactions =>
      member DEFAULT_NEAR_METHODS "NEAR_SIGN_AND_SEND_TRANSACTIONS"
  | ElrondSignMessage => member DEFAULT_ELROND_METHODS "ELROND_SIGN_MESSAGE"
  | ElrondSignTransaction => member DEFAULT_ELROND_METHODS "ELROND_SIGN_TRANSACTION"
  | ElrondSignTransactions => member DEFAULT_ELROND_METHODS "ELROND_SIGN_TRANSACTIONS"
  | ChiaGetWallets => member DEFAULT_CHIA_METHODS "CHIA_GET_WALLETS"
  | ChiaGetCATWalletInfo => member DEFAULT_CHIA_METHODS "CHIA_GET_CAT_WALLET_INFO"
  | ChiaSendTransaction => member DEFAULT_CHIA_METHODS "CHIA_SEND_TRANSACTION"
  | ChiaSpendCAT => member DEFAULT_CHIA_METHODS "CHIA_SPEND_CAT"
  | ChiaNewAddress => member DEFAULT_CHIA_METHODS "CHIA_NEW_ADDRESS"
  | ChiaLogIn => member DEFAULT_CHIA_METHODS "CHIA_LOG_IN"
  | ChiaSignMessageByAddress =>
      member DEFAULT_CHIA_METHODS "CHIA_SIGN_MESSAGE_BY_ADDRESS"
  | ChiaSignMessageById => member DEFAULT_CHIA_METHODS "CHIA_SIGN_MESSAGE_BY_ID"
  | ChiaGetWalletSyncStatus =>
      member DEFAULT_CHIA_METHODS "CHIA_GET_WALLET_SYNC_STATUS"
  | ChiaGetNFTInfo => member DEFAULT_CHIA_METHODS "CHIA_GET_NFT_INFO"
  | ChiaGetNFTs => member DEFAULT_CHIA_METHODS "CHIA_GET_NFTS"
  | ChiaTakeOffer => member DEFAULT_CHIA_METHODS "CHIA_TAKE_OFFER"
  | ChiaCreateOfferForIds => member DEFAULT_CHIA_METHODS "CHIA_CREATE_OFFER_FOR_IDS"
  | ChiaUnknownTestCommand => member DEFAULT_CHIA_METHODS "CHIA_UNKNOWN_TEST_COMMAND"
  | ChiaShowOfferDataNotification | ChiaShowAnnouncementNotification =>
      member DEFAULT_CHIA_METHODS "CHIA_SHOW_NOTIFICATION"
  end.

(** What the UI calls: the routine of an entry behind the dispatch
    wrapper. *)
Definition wrapped (e : entry) : string → string → UI unit :=
  _createJsonRpcRequestHandler ctx (routine e).
End Tables.

(** ** Sequential use of the context *)

(** One invocation from the UI: a wrapped routine or the ping probe, under
    whatever context the current render closed over. *)
Inductive invocation : state → state → Prop :=
| invoke_wrapped ctx rpcRequest chainId address s o s' :
    _createJsonRpcRequestHandler ctx rpcRequest chainId address s = (o, s') →
    invocation s s'
| invoke_ping ctx s o s' :
    ping ctx s = (o, s') →
    invocation s s'.

(** The states between invocations, each invocation running to its end
    before the next begins. *)
Definition at_rest (s : state) : Prop := rtc invocation initial_state s.

(** The record the wrapper's [catch] stores for a thrown value. *)
Definition failure_record (address : string) (err : jsval) : IFormattedRpcResponse :=
  {| method := None;
     address := Some address;
     valid := false;
     result := message_or_self err |}.

(** The final state of a wrapped invocation, by the routine's outcome. *)
Definition settled_state (address : string)
    (o : outcome IFormattedRpcResponse) (l' : list event) : state :=
  match o with
  | Returned r =>
      {| pending := false;
         rpcResult := Stored r;
         log := l' ++ [EvSetResult (Stored r)] ++ [EvSetPending false] |}
  | Thrown e =>
      {| pending := false;
         rpcResult := Stored (failure_record address e);
         log := (l' ++ [EvConsoleError e])
                  ++ [EvSetResult (Stored (failure_record address e))]
                  ++ [EvSetPending false] |}
  end.

(** ** A sample wallet, context and world

    Concrete collaborators on which the general statements are run. *)

Definition sample_signatures : jsval :=
  VArr [VObj [("signature", VStr "a1")];
        VObj [("signature", VStr "b2")];
        VObj [("signature", VStr "c3")]].

(** A wallet that answers the message-signing methods of EIP155 with a bare
    signature string and every other method with an object. *)
Definition sample_client : Client :=
  {| request := λ _ _ method _,
       match method with
       | VStr "eth_sign" | VStr "personal_sign" | VStr "eth_signTypedData"
       | VStr "eth_signTransaction" | VStr "eth_sendTransaction" =>
           Returned (VStr "0x5163")
       | _ =>
           Returned (VObj [("signature", VStr "a1");
                           ("signatures", sample_signatures);
                           ("transaction", VObj [("hash", VStr "9f")])])
       end;
     client_ping := λ _, Returned () |}.

Definition sample_asset (b : string) : AssetData :=
  {| symbol := "ETH"; name := "Ether"; balance := Some b |}.

Definition sample_ctx : Ctx :=
  {| client := Some sample_client;
     session := Some {| topic := "t0" |};
     accounts := ["eip155:1:0xab"];
     balances := {[ "eip155:1:0xab" := [sample_asset "0"] ]};
     solanaPublicKeys := Some {[ "So1" := {| toBase58 := "So1" |} ]};
     chainData := {[ "eip155" := {[ "1" := VObj [("name", VStr "Ethereum")] ]};
                     "cosmos" := {[ "cosmoshub-4" := VObj [("name", VStr "Cosmos Hub")] ]} ]};
     isTestnet := true |}.

(** The same render before WalletConnect is initialised. *)
Definition sample_ctx_no_client : Ctx :=
  {| client := None;
     session := session sample_ctx;
     accounts := accounts sample_ctx;
     balances := balances sample_ctx;
     solanaPublicKeys := solanaPublicKeys sample_ctx;
     chainData := chainData sample_ctx;
     isTestnet := isTestnet sample_ctx |}.

Definition sample_tx : jsval :=
  VObj [("from", VStr "0xab"); ("to", VStr "0xab"); ("data", VStr "0x");
        ("nonce", VStr "0x00"); ("gasPrice", VStr "0x02");
        ("gasLimit", VStr "0x5208"); ("value", VStr "0x00")].

(** A world whose verifiers take a verdict as a parameter: the signer
    recovered by the EVM verifiers is ["0xAB"] when [verdict] holds, and the
    Elrond verifier rejects exactly the signature ["b2"]. *)
Definition sample_world (verdict : bool) : World :=
  {| Date_now := 1700000000000;
     Math_random_floor := λ _, 1%nat;
     JSON_stringify := λ v, VStr (js_String v);
     encoding_utf8ToHex := λ s, "0x" +:+ s;
     formatTestTransaction := λ _, Returned sample_tx;
     eip712_example_json := VStr "{}";
     BigNumber_from := λ v,
       match v with
       | VStr "0" => Returned 0%Z
       | VStr "0x02" => Returned 2%Z
       | VStr "0x5208" => Returned 21000%Z
       | _ => Thrown (Error "invalid BigNumber string")
       end;
     utils_verifyMessage := λ _ _, Returned (if verdict then "0xAB" else "0xCD");
     utils_verifyTypedData := λ _, Returned (if verdict then "0xAB" else "0xCD");
     EthTransaction_verifySignature := λ _, Returned verdict;
     formatDirectSignDoc := λ _ _ _ _ _ _ _, Returned (VObj []);
     stringifySignDocValues := λ d, Returned d;
     verifyDirectSignature := λ _ _ _, Returned verdict;
     verifyAminoSignature := λ _ _ _, Returned verdict;
     getRecentBlockhash := λ _, Returned "bh";
     Keypair_generate_publicKey := {| toBase58 := "Kp1" |};
     SystemProgram_transfer := λ from to _,
       match from with
       | Some k =>
           Returned {| programId := {| toBase58 := "11111111111111111111111111111111" |};
                       data := [2; 0; 0; 0; 1]%N;
                       keys := [ {| isSigner := true; isWritable := true; pubkey := k |};
                                 {| isSigner := false; isWritable := true; pubkey := to |} ] |}
       | None => Thrown (VError "TypeError" "fromPubkey is undefined")
       end;
     bs58_encode := λ _, "3x";
     TextEncoder_encode := λ _, [1]%N;
     addSignature_verifySignatures := λ _ _ _, Returned verdict;
     verifyMessageSignature := λ _ _ _, Returned verdict;
     cryptoWaitReady := Returned true;
     signatureVerify := λ _ _ _, Returned verdict;
     Address_new := λ a, Returned {| bech32 := a |};
     Address_fromBech32 := λ a, Returned {| bech32 := a |};
     toPlainObject := λ t, VObj [("nonce", VNum (nonce t)); ("value", VStr (value t))];
     Signature_new := λ raw, Returned {| signature_hex := js_String raw |};
     UserVerifier_verify_transaction := λ _ t,
       Returned (match tx_signature t with
                 | Some g => negb (String.eqb (signature_hex g) "b2")
                 | None => false
                 end);
     UserVerifier_verify_message := λ _ _, Returned verdict |}.

(** A routine whose request the user declines. *)
Definition rejecting_routine : string → string → Rpc IFormattedRpcResponse :=
  λ _ _, mthrow (Error "User rejected").

(** ** Properties of routines *)

(** Whatever [m] returns satisfies [Q]. *)
Definition returns_only {A} (Q : A → Prop) (m : Rpc A) : Prop :=
  ∀ l a l', m l = (Returned a, l') → Q a.

(** [m] only appends to the log, and every event it appends satisfies [P]. *)
Definition adds_only {A} (P : event → Prop) (m : Rpc A) : Prop :=
  ∀ l o l', m l = (o, l') → ∃ evs, l' = l ++ evs ∧ Forall P evs.

(** An event that, if it is a session request, carries the method [m]. *)
Definition sends_method (m : jsval) (ev : event) : Prop :=
  match ev with
  | EvRequest _ _ m' _ => m' = m
  | _ => True
  end.

(** The render [ctx] with another account list. *)
Definition with_accounts (accs : list string) (ctx : Ctx) : Ctx :=
  {| client := client ctx;
     session := session ctx;
     accounts := accs;
     balances := balances ctx;
     solanaPublicKeys := solanaPublicKeys ctx;
     chainData := chainData ctx;
     isTestnet := isTestnet ctx |}.


(** The entries whose routine looks the account up in the account list. *)
Definition consults_accounts (e : entry) : bool :=
  match e with
  | EthSendTransaction | EthSignTransaction => true
  | _ => false
  end.



(** The [method] field an entry's routine writes in the record it returns. *)
Definition reported_method (e : entry) : jsval :=
  match e with
  | EthEthSign => js_plus_str (wire_method e) " (standard)"
  | _ => wire_method e
  end.

(** ** Further properties of routines *)

Definition is_request (ev : event) : bool :=
  match ev with
  | EvRequest _ _ _ _ => true
  | _ => false
  end.

(** The number of session requests among [evs]. *)
Definition requests (evs : list event) : nat :=
  length (List.filter is_request evs).

(** [m] appends at most [k] requests to the log, and exactly [k] when it
    returns a value, unless the value satisfies [Q]. *)
Definition sends_if {A} (k : nat) (Q : A → Prop) (m : Rpc A) : Prop :=
  ∀ l o l',
    m l = (o, l') →
    ∃ evs,
      l' = l ++ evs
      ∧ requests evs ≤ k
      ∧ ∀ a, o = Returned a → requests evs = k ∨ Q a.

(** [m] does not read the log: from any log it has the outcome it has from
    the empty one and appends the same events. *)
Definition framed {A} (m : Rpc A) : Prop :=
  ∀ l, m l = ((m []).1, l ++ (m []).2).

(** The network read an entry's routine performs besides its request. *)
Definition network_read (e : entry) : option string :=
  match e with
  | EthSendTransaction | EthSignTransaction => Some "formatTestTransaction"
  | SolanaSignTransaction => Some "getRecentBlockhash"
  | _ => None
  end.

(** An event a routine of entry [e], called for [chainId], may leave in the
    log: a request to the session's topic for that chain, or the entry's
    network read. *)
Definition addressed (ctx : Ctx) (e : entry) (chainId : string) (ev : event) : Prop :=
  match ev with
  | EvRequest t c _ _ => topic <$> session ctx = Some t ∧ c = chainId
  | EvNetwork what => network_read e = Some what
  | _ => False
  end.


(** The render [ctx] with another client. *)
Definition with_client (c : Client) (ctx : Ctx) : Ctx :=
  {| client := Some c;
     session := session ctx;
     accounts := accounts ctx;
     balances := balances ctx;
     solanaPublicKeys := solanaPublicKeys ctx;
     chainData := chainData ctx;
     isTestnet := isTestnet ctx |}.

(** A wallet that declines every request with WalletConnect's error
    object. *)
Definition user_rejected : jsval :=
  VObj [("code", VNum 5000); ("message", VStr "User rejected.")].

Definition declining_client : Client :=
  {| request := λ _ _ _ _, Thrown user_rejected;
     client_ping := λ _, Thrown (Error "no response") |}.



(** The render [ctx] with another balance map. *)
Definition with_balances (table : gmap string (list AssetData)) (ctx : Ctx) : Ctx :=
  {| client := client ctx;
     session := session ctx;
     accounts := accounts ctx;
     balances := table;
     solanaPublicKeys := solanaPublicKeys ctx;
     chainData := chainData ctx;
     isTestnet := isTestnet ctx |}.

(** The world [W] with another [BigNumber.from]. *)
Definition with_BigNumber_from (f : jsval → outcome Z) (W : World) : World :=
  {| Date_now := Date_now W;
     Math_random_floor := Math_random_floor W;
     JSON_stringify := JSON_stringify W;
     encoding_utf8ToHex := encoding_utf8ToHex W;
     formatTestTransaction := formatTestTransaction W;
     eip712_example_json := eip712_example_json W;
     BigNumber_from := f;
     utils_verifyMessage := utils_verifyMessage W;
     utils_verifyTypedData := utils_verifyTypedData W;
     EthTransaction_verifySignature := EthTransaction_verifySignature W;
     formatDirectSignDoc := formatDirectSignDoc W;
     stringifySignDocValues := stringifySignDocValues W;
     verifyDirectSignature := verifyDirectSignature W;
     verifyAminoSignature := verifyAminoSignature W;
     getRecentBlockhash := getRecentBlockhash W;
     Keypair_generate_publicKey := Keypair_generate_publicKey W;
     SystemProgram_transfer := SystemProgram_transfer W;
     bs58_encode := bs58_encode W;
     TextEncoder_encode := TextEncoder_encode W;
     addSignature_verifySignatures := addSignature_verifySignatures W;
     verifyMessageSignature := verifyMessageSignature W;
     cryptoWaitReady := cryptoWaitReady W;
     signatureVerify := signatureVerify W;
     Address_new := Address_new W;
     Address_fromBech32 := Address_fromBech32 W;
     toPlainObject := toPlainObject W;
     Signature_new := Signature_new W;
     UserVerifier_verify_transaction := UserVerifier_verify_transaction W;
     UserVerifier_verify_message := UserVerifier_verify_message W |}.




(** The entries of [chiaRpc]. *)
Definition is_chia (e : entry) : bool :=
  match e with
  | ChiaGetWallets | ChiaGetCATWalletInfo | ChiaSendTransaction | ChiaSpendCAT
  | ChiaNewAddress | ChiaLogIn | ChiaSignMessageByAddress | ChiaSignMessageById
  | ChiaGetWalletSyncStatus | ChiaGetNFTInfo | ChiaGetNFTs | ChiaTakeOffer
  | ChiaCreateOfferForIds | ChiaUnknownTestCommand
  | ChiaShowOfferDataNotification | ChiaShowAnnouncementNotification => true
  | _ => false
  end.

(** The entries of [elrondRpc]. *)
Definition is_elrond (e : entry) : bool :=
  match e with
  | ElrondSignMessage | ElrondSignTransaction | ElrondSignTransactions => true
  | _ => false
  end.

(** An event that, if it is a session request, names [fingerprint] in its
    parameters. *)
Definition carries_fingerprint (fingerprint : string) (ev : event) : Prop :=
  match ev with
  | EvRequest _ _ _ params =>
      js_get params "fingerprint" = Returned (VStr fingerprint)
  | _ => True
  end.

(** The setter and console calls with which the wrapper ends an invocation
    whose routine had the outcome [o]. *)
Definition closing_events (addr : string) (o : outcome IFormattedRpcResponse)
    : list event :=
  match o with
  | Returned r => [EvSetResult (Stored r); EvSetPending false]
  | Thrown e =>
      [EvConsoleError e; EvSetResult (Stored (failure_record addr e));
       EvSetPending false]
  end.

(** The world [W] with another [new Address]. *)
Definition with_Address_new (f : string → outcome ElrondAddress) (W : World) : World :=
  {| Date_now := Date_now W;
     Math_random_floor := Math_random_floor W;
     JSON_stringify := JSON_stringify W;
     encoding_utf8ToHex := encoding_utf8ToHex W;
     formatTestTransaction := formatTestTransaction W;
     eip712_example_json := eip712_example_json W;
     BigNumber_from := BigNumber_from W;
     utils_verifyMessage := utils_verifyMessage W;
     utils_verifyTypedData := utils_verifyTypedData W;
     EthTransaction_verifySignature := EthTransaction_verifySignature W;
     formatDirectSignDoc := formatDirectSignDoc W;
     stringifySignDocValues := stringifySignDocValues W;
     verifyDirectSignature := verifyDirectSignature W;
     verifyAminoSignature := verifyAminoSignature W;
     getRecentBlockhash := getRecentBlockhash W;
     Keypair_generate_publicKey := Keypair_generate_publicKey W;
     SystemProgram_transfer := SystemProgram_transfer W;
     bs58_encode := bs58_encode W;
     TextEncoder_encode := TextEncoder_encode W;
     addSignature_verifySignatures := addSignature_verifySignatures W;
     verifyMessageSignature := verifyMessageSignature W;
     cryptoWaitReady := cryptoWaitReady W;
     signatureVerify := signatureVerify W;
     Address_new := f;
     Address_fromBech32 := Address_fromBech32 W;
     toPlainObject := toPlainObject W;
     Signature_new := Signature_new W;
     UserVerifier_verify_transaction := UserVerifier_verify_transaction W;
     UserVerifier_verify_message := UserVerifier_verify_message W |}.

(** The enum of the HDDCoin family in [constants/default.ts]. *)
Definition DEFAULT_HDDCOIN_METHODS : enum :=
  [ ("HDDCOIN_GET_WALLETS", "hddcoin_getWallets");
    ("HDDCOIN_GET_CAT_WALLET_INFO", "hddcoin_getCATWalletInfo");
    ("HDDCOIN_SEND_TRANSACTION", "hddcoin_sendTransaction");
    ("HDDCOIN_SPEND_CAT", "hddcoin_spendCAT");
    ("HDDCOIN_NEW_ADDRESS", "hddcoin_getNextAddress");
    ("HDDCOIN_LOG_IN", "hddcoin_logIn");
    ("HDDCOIN_SIGN_MESSAGE_BY_ADDRESS", "hddcoin_signMessageByAddress");
    ("HDDCOIN_SIGN_MESSAGE_BY_ID", "hddcoin_signMessageById");
    ("HDDCOIN_GET_WALLET_SYNC_STATUS", "hddcoin_getSyncStatus");
    ("HDDCOIN_GET_NFT_INFO", "hddcoin_getNFTInfo");
    ("HDDCOIN_GET_NFTS", "hddcoin_getNFTs");
    ("HDDCOIN_TAKE_OFFER", "hddcoin_takeOffer");
    ("HDDCOIN_CREATE_OFFER_FOR_IDS", "hddcoin_createOfferForIds") ].

(** The members the enums declare and no routine reads. *)
Definition unused_wire_names : list string :=
  List.map snd DEFAULT_HDDCOIN_METHODS
    ++ ["near_signIn"; "near_signOut"; "near_getAccounts"; "erd_signLoginToken"].

(** An event that is not a request for one of the unused wire names. *)
Definition avoids_unused_names (ev : event) : Prop :=
  match ev with
  | EvRequest _ _ m _ => ∀ name, m = VStr name → name ∉ unused_wire_names
  | _ => True
  end.

(** ** The dispatch wrapper: general facts *)

Lemma handler_settles ctx rpcRequest chainId address s cl se :
  client ctx = Some cl →
  session ctx = Some se →
  _createJsonRpcRequestHandler ctx rpcRequest chainId address s =
    (Returned (),
     settled_state address
       (rpcRequest chainId address (log s ++ [EvSetPending true])).1
       (rpcRequest chainId address (log s ++ [EvSetPending true])).2).
Proof.
  intros Hc Hs. unfold _createJsonRpcRequestHandler. rewrite Hc, Hs.
  unfold try_finally, try_catch, mbind, Eff_bind, setPending, setResult,
    console_error, lift, emit. simpl.
  destruct (rpcRequest chainId address (log s ++ [EvSetPending true]))
    as [[r|e] l']; simpl; rewrite <- ?(assoc_L (++)); reflexivity.
Qed.

Lemma handler_refuses ctx rpcRequest chainId address s :
  client ctx = None ∨ session ctx = None →
  _createJsonRpcRequestHandler ctx rpcRequest chainId address s =
    (Thrown (Error (match client ctx with
                    | None => "WalletConnect is not initialized"
                    | Some _ => "Session is not connected"
                    end)), s).
Proof.
  unfold _createJsonRpcRequestHandler.
  destruct (client ctx), (session ctx); intros [?|?]; simplify_eq; reflexivity.
Qed.

Lemma ping_pending_false ctx s o s' :
  pending s = false → ping ctx s = (o, s') → pending s' = false.
Proof.
  unfold ping. intros Hp.
  destruct (client ctx) as [c|]; [|intros [= <- <-]; exact Hp].
  destruct (session ctx) as [se|]; [|intros [= <- <-]; exact Hp].
  unfold try_finally, try_catch, mbind, Eff_bind, setPending, setResult,
    console_error, lift, emit, settle, mret, Eff_ret. simpl.
  destruct (client_ping c (topic se)); intros [= <- <-]; reflexivity.
Qed.

Lemma invocation_pending_false s s' :
  pending s = false → invocation s s' → pending s' = false.
Proof.
  intros Hp Hinv.
  inversion Hinv as [ctx f c a s0 o s0' Hrun | ctx s0 o s0' Hrun]; subst s0 s0'.
  - destruct (client ctx) as [cl|] eqn:Hc; [destruct (session ctx) as [se|] eqn:Hs|].
    + rewrite (handler_settles _ _ _ _ _ _ _ Hc Hs) in Hrun.
      injection Hrun as _ <-.
      destruct (f c a (log s ++ [EvSetPending true])) as [[r|e] l']; reflexivity.
    + rewrite handler_refuses in Hrun by auto. by injection Hrun as _ <-.
    + rewrite handler_refuses in Hrun by auto. by injection Hrun as _ <-.
  - eauto using ping_pending_false.
Qed.

(** Between invocations nothing is pending. *)
Lemma at_rest_pending_false s : at_rest s → pending s = false.
Proof.
  unfold at_rest.
  apply (rtc_ind_r (λ s, pending s = false) initial_state); [reflexivity|].
  eauto using invocation_pending_false.
Qed.

(** ** The dispatch wrapper: the claims *)

(** C1: when the client and the session are defined and the inner routine
    throws, the wrapper stores a record with [valid] false, with [result] the
    thrown error's message ([err?.message ?? err]) and with no [method]
    field; the thrown value is also written to the console. *)
Theorem C1_thrown_error_is_stored
    ctx rpcRequest chainId address s cl se e l' :
  client ctx = Some cl →
  session ctx = Some se →
  rpcRequest chainId address (log s ++ [EvSetPending true]) = (Thrown e, l') →
  ∃ r,
    rpcResult (_createJsonRpcRequestHandler ctx rpcRequest chainId address s).2
      = Stored r
    ∧ valid r = false
    ∧ method r = None
    ∧ result r = message_or_self e
    ∧ (∀ name message, e = VError name message → result r = VStr message)
    ∧ EvConsoleError e
        ∈ log (_createJsonRpcRequestHandler ctx rpcRequest chainId address s).2.
Proof.
  intros Hc Hs Hrun.
  rewrite (handler_settles _ _ _ _ _ _ _ Hc Hs), Hrun. simpl.
  exists (failure_record address e). repeat split.
  - intros name message ->. reflexivity.
  - rewrite !elem_of_app, !list_elem_of_singleton. auto.
Qed.

Lemma C1_witness :
  ∃ r,
    rpcResult (_createJsonRpcRequestHandler sample_ctx
                 rejecting_routine "eip155:1" "0xab"
                 initial_state).2 = Stored r
    ∧ valid r = false
    ∧ method r = None
    ∧ result r = message_or_self (Error "User rejected")
    ∧ (∀ name message,
         Error "User rejected" = VError name message → result r = VStr message)
    ∧ EvConsoleError (Error "User rejected")
        ∈ log (_createJsonRpcRequestHandler sample_ctx
                 rejecting_routine "eip155:1" "0xab"
                 initial_state).2.
Proof.
  apply (C1_thrown_error_is_stored sample_ctx
           rejecting_routine "eip155:1" "0xab"
           initial_state sample_client {| topic := "t0" |}
           (Error "User rejected") [EvSetPending true]); reflexivity.
Defined.

(** C2: with the client or the session undefined, a wrapped operation throws
    "WalletConnect is not initialized" (no client) or "Session is not
    connected" (client but no session) before [setPending(true)]: the state,
    with its log of setter calls and its stored record, is the one it was
    called in, and between invocations its pending flag is false. *)
Theorem C2_fails_fast_when_uninitialised
    ctx rpcRequest chainId address s :
  client ctx = None ∨ session ctx = None →
  _createJsonRpcRequestHandler ctx rpcRequest chainId address s
    = (Thrown (Error (match client ctx with
                      | None => "WalletConnect is not initialized"
                      | Some _ => "Session is not connected"
                      end)), s)
  ∧ (at_rest s →
     pending (_createJsonRpcRequestHandler ctx rpcRequest chainId address s).2
       = false).
Proof.
  intros H. rewrite handler_refuses by exact H. split; [reflexivity|].
  apply at_rest_pending_false.
Qed.

Lemma C2_witness :
  _createJsonRpcRequestHandler sample_ctx_no_client
      rejecting_routine "eip155:1" "0xab" initial_state
    = (Thrown (Error "WalletConnect is not initialized"), initial_state)
  ∧ (at_rest initial_state →
     pending (_createJsonRpcRequestHandler sample_ctx_no_client
                rejecting_routine "eip155:1" "0xab"
                initial_state).2 = false).
Proof.
  apply (C2_fails_fast_when_uninitialised sample_ctx_no_client
           rejecting_routine "eip155:1" "0xab" initial_state).
  left. reflexivity.
Defined.



(** C10: with the client and the session defined, the wrapped callable
    resolves whatever the inner routine does; a value the routine throws is
    caught and stored as a [valid: false] record. *)
Theorem C10_wrapper_never_rejects
    ctx rpcRequest chainId address s cl se :
  client ctx = Some cl →
  session ctx = Some se →
  (_createJsonRpcRequestHandler ctx rpcRequest chainId address s).1 = Returned ()
  ∧ ∀ e l',
      rpcRequest chainId address (log s ++ [EvSetPending true]) = (Thrown e, l') →
      rpcResult (_createJsonRpcRequestHandler ctx rpcRequest chainId address s).2
        = Stored (failure_record address e)
      ∧ valid (failure_record address e) = false.
Proof.
  intros Hc Hs. rewrite (handler_settles _ _ _ _ _ _ _ Hc Hs).
  split; [reflexivity|]. intros e l' ->. split; reflexivity.
Qed.

Lemma C10_witness :
  (_createJsonRpcRequestHandler sample_ctx
     rejecting_routine "eip155:1" "0xab" initial_state).1
    = Returned ()
  ∧ ∀ e l',
      rejecting_routine "eip155:1" "0xab"
        (log initial_state ++ [EvSetPending true])
        = (Thrown e, l') →
      rpcResult (_createJsonRpcRequestHandler sample_ctx
                   rejecting_routine "eip155:1" "0xab"
                   initial_state).2
        = Stored (failure_record "0xab" e)
      ∧ valid (failure_record "0xab" e) = false.
Proof.
  apply (C10_wrapper_never_rejects sample_ctx
           rejecting_routine "eip155:1" "0xab"
           initial_state sample_client {| topic := "t0" |}); reflexivity.
Defined.

(** ** Reasoning about routines *)

Section Reasoning.
Context {A B : Type}.
Implicit Types (m : Rpc A) (f : A → Rpc B) (P : event → Prop) (Q : B → Prop).

Lemma returns_ret (Q' : A → Prop) (a : A) : Q' a → returns_only Q' (mret a).
Proof. intros H l a' l' [= <- _]. exact H. Qed.

Lemma returns_throw (Q' : A → Prop) (e : jsval) : returns_only Q' (mthrow e).
Proof. intros l a l' [=]. Qed.

Lemma returns_bind Q m f :
  (∀ a, returns_only Q (f a)) → returns_only Q (m ≫= f).
Proof.
  intros Hf l b l'. unfold mbind, Eff_bind.
  destruct (m l) as [[a|e] l1]; [apply Hf | intros [=]].
Qed.


Lemma returns_rethrow (Q' : A → Prop) m :
  returns_only Q' m → returns_only Q' (rethrow_as_Error m).
Proof.
  intros Hm l a l'. unfold rethrow_as_Error, try_catch.
  destruct (m l) as [[a'|e] l1] eqn:Hml; [|intros [=]].
  intros [= <- _]. eapply Hm, Hml.
Qed.

Lemma adds_ret P (a : A) : adds_only P (mret a).
Proof. intros l o l' [= <- <-]. exists []. by rewrite app_nil_r. Qed.

Lemma adds_throw P (e : jsval) : adds_only P (mthrow e : Rpc A).
Proof. intros l o l' [= <- <-]. exists []. by rewrite app_nil_r. Qed.

Lemma adds_settle P (o : outcome A) : adds_only P (settle o).
Proof. intros l o' l' [= <- <-]. exists []. by rewrite app_nil_r. Qed.

Lemma adds_bind P m f :
  adds_only P m → (∀ a, adds_only P (f a)) → adds_only P (m ≫= f).
Proof.
  intros Hm Hf l o l'. unfold mbind, Eff_bind.
  destruct (m l) as [[a|e] l1] eqn:Hml.
  - intros Hfa.
    destruct (Hm _ _ _ Hml) as (ev1 & -> & H1).
    destruct (Hf _ _ _ _ Hfa) as (ev2 & -> & H2).
    exists (ev1 ++ ev2). split; [by rewrite (assoc_L (++)) | by apply Forall_app].
  - intros [= <- <-]. eapply Hm, Hml.
Qed.

Lemma adds_try_catch P m (h : jsval → Rpc A) :
  adds_only P m → (∀ e, adds_only P (h e)) → adds_only P (try_catch m h).
Proof.
  intros Hm Hh l o l'. unfold try_catch.
  destruct (m l) as [[a|e] l1] eqn:Hml.
  - intros [= <- <-]. eapply Hm, Hml.
  - intros Hhe.
    destruct (Hm _ _ _ Hml) as (ev1 & -> & H1).
    destruct (Hh _ _ _ _ Hhe) as (ev2 & -> & H2).
    exists (ev1 ++ ev2). split; [by rewrite (assoc_L (++)) | by apply Forall_app].
Qed.

Lemma adds_rethrow P m : adds_only P m → adds_only P (rethrow_as_Error m).
Proof. intros Hm. apply adds_try_catch; [exact Hm | intros e; apply adds_throw]. Qed.
End Reasoning.

Lemma adds_emit P ev : P ev → adds_only P (emit ev).
Proof.
  intros H l o l' [= <- <-]. exists [ev]. split; [reflexivity|].
  by apply Forall_singleton.
Qed.

Lemma adds_client_request ctx P chainId method params :
  (∀ t, P (EvRequest t chainId method params)) →
  adds_only P (client_request ctx chainId method params).
Proof.
  intros H. unfold client_request.
  destruct (client ctx); [|apply adds_throw].
  destruct (session ctx); [|apply adds_throw].
  apply adds_bind; [by apply adds_emit | intros _; apply adds_settle].
Qed.

Lemma adds_find_account ctx P caip : adds_only P (find_account ctx caip).
Proof.
  unfold find_account. destruct (List.find _ _); [apply adds_ret | apply adds_throw].
Qed.

Lemma adds_require_chainData ctx P chainId : adds_only P (require_chainData ctx chainId).
Proof.
  unfold require_chainData. apply adds_bind; [apply adds_settle|].
  intros v. destruct (is_undefined v); [apply adds_throw | apply adds_ret].
Qed.

Lemma adds_verify_batch W P userAddress result txs index acc :
  adds_only P (verify_batch W userAddress result txs index acc).
Proof.
  revert index acc. induction txs as [|current rest IH]; intros index acc; simpl.
  - apply adds_ret.
  - repeat (apply adds_bind; [apply adds_settle | intros ?]).
    apply adds_bind; [destruct acc; [apply adds_settle | apply adds_ret]|].
    intros acc'. apply IH.
Qed.


Lemma find_account_known ctx caip l :
  caip ∈ accounts ctx → find_account ctx caip l = (Returned caip, l).
Proof.
  unfold find_account. intros Hin.
  destruct (List.find _ _) as [account|] eqn:Hf.
  - apply List.find_some in Hf as [_ Heq]. apply String.eqb_eq in Heq. by subst.
  - exfalso. apply list_elem_of_In in Hin.
    apply (List.find_none _ _ Hf) in Hin. by rewrite String.eqb_refl in Hin.
Qed.

Lemma find_account_unknown ctx caip l :
  caip ∉ accounts ctx →
  find_account ctx caip l
    = (Thrown (Error ("Account for " +:+ caip +:+ " not found")), l).
Proof.
  unfold find_account. intros Hnot.
  destruct (List.find _ _) as [account|] eqn:Hf; [|reflexivity].
  apply List.find_some in Hf as [Hin Heq]. apply String.eqb_eq in Heq. subst.
  by apply list_elem_of_In in Hin.
Qed.

(** Unfold an entry's routine down to its binds, leaving the primitives
    folded. *)
Ltac unfold_routines :=
  cbv beta iota zeta delta
    [routine chia_entry
     ethereumRpc_testSendTransaction ethereumRpc_testSignTransaction
     ethereumRpc_testEthSign ethereumRpc_testSignPersonalMessage
     ethereumRpc_testSignTypedData
     cosmosRpc_testSignDirect cosmosRpc_testSignAmino
     solanaRpc_testSignMessage solanaRpc_testSignTransaction
     polkadotRpc_testSignMessage polkadotRpc_testSignTransaction
     nearRpc_testSignAndSendTransaction nearRpc_testSignAndSendTransactions
     elrondRpc_testSignMessage elrondRpc_testSignTransaction
     elrondRpc_testSignTransactions
     chiaRpc_testGetWallets chiaRpc_testGetCATWalletInfo
     chiaRpc_testSendTransaction chiaRpc_testSpendCAT chiaRpc_testNewAddress
     chiaRpc_testLogIn chiaRpc_testSignMessageByAddress
     chiaRpc_testSignMessageById chiaRpc_testGetWalletSyncStatus
     chiaRpc_testGetNFTInfo chiaRpc_testGetNFTs chiaRpc_testTakeOffer
     chiaRpc_testCreateOfferForIds chiaRpc_testUnknownTestCommand
     chiaRpc_testShowOfferDataNotification
     chiaRpc_testShowAnnouncementNotification].

(** Every request a routine sends carries the entry's wire method. *)
Lemma routine_sends_wire_method ctx W e chainId address :
  adds_only (sends_method (wire_method e)) (routine ctx W e chainId address).
Proof.
  destruct e; unfold_routines;
    repeat lazymatch goal with
      | |- adds_only _ (mret _) => apply adds_ret
      | |- adds_only _ (mthrow _) => apply adds_throw
      | |- adds_only _ (settle _) => apply adds_settle
      | |- adds_only _ (emit _) => apply adds_emit; exact I
      | |- adds_only _ (client_request _ _ _ _) =>
          apply adds_client_request; intros; reflexivity
      | |- adds_only _ (find_account _ _) => apply adds_find_account
      | |- adds_only _ (require_chainData _ _) => apply adds_require_chainData
      | |- adds_only _ (verify_batch _ _ _ _ _ _) => apply adds_verify_batch
      | |- adds_only _ (rethrow_as_Error _) => apply adds_rethrow
      | |- adds_only _ (mbind _ _) => apply adds_bind; [|intros ?]
      | |- adds_only _ (match ?x with _ => _ end) => destruct x
      end.
Qed.


(** The [method] field of whatever a routine returns. *)
Lemma routine_reports_method ctx W e chainId address :
  returns_only (λ r, method r = Some (reported_method e))
    (routine ctx W e chainId address).
Proof.
  destruct e; unfold_routines;
    repeat lazymatch goal with
      | |- returns_only _ (mthrow _) => apply returns_throw
      | |- returns_only _ (mret _) => apply returns_ret
      | |- returns_only _ (rethrow_as_Error _) => apply returns_rethrow
      | |- returns_only _ (mbind _ _) => apply returns_bind; intros ?
      | |- returns_only _ (match ?x with _ => _ end) => destruct x
      end;
    reflexivity.
Qed.


(** ** The chain routines: the claims *)

(** C4: EVM [testSendTransaction], for a known account whose first balance
    is below gasPrice × gasLimit of the formatted test transaction, returns
    the record [valid: false] with the message "Insufficient funds for
    intrinsic transaction cost"; it sends nothing over the session transport
    (the only event is the helper's network read), and behind the wrapper
    the call resolves with that record stored. *)
Theorem C4_insufficient_funds_short_circuit
    ctx W chainId address l tx balance_text b price gas_price limit gas_limit :
  (chainId +:+ ":" +:+ address) ∈ accounts ctx →
  formatTestTransaction W (chainId +:+ ":" +:+ address) = Returned tx →
  first_balance ctx (chainId +:+ ":" +:+ address) = Returned balance_text →
  BigNumber_from W balance_text = Returned b →
  js_get tx "gasPrice" = Returned price →
  BigNumber_from W price = Returned gas_price →
  js_get tx "gasLimit" = Returned limit →
  BigNumber_from W limit = Returned gas_limit →
  (b < gas_price * gas_limit)%Z →
  let refused :=
    {| method := Some (VStr "eth_sendTransaction");
       address := Some address;
       valid := false;
       result := VStr "Insufficient funds for intrinsic transaction cost" |} in
  ethereumRpc_testSendTransaction ctx W chainId address l
    = (Returned refused, l ++ [EvNetwork "formatTestTransaction"])
  ∧ ∀ s cl se,
      client ctx = Some cl →
      session ctx = Some se →
      wrapped ctx W EthSendTransaction chainId address s
        = (Returned (),
           {| pending := false;
              rpcResult := Stored refused;
              log := log s ++ [EvSetPending true;
                               EvNetwork "formatTestTransaction";
                               EvSetResult (Stored refused);
                               EvSetPending false] |}).
Proof.
  intros Hin Htx Hb1 Hb2 Hp1 Hp2 Hq1 Hq2 Hlt refused.
  assert (Hrun : ∀ l0, ethereumRpc_testSendTransaction ctx W chainId address l0
                       = (Returned refused, l0 ++ [EvNetwork "formatTestTransaction"])).
  { intros l0. unfold ethereumRpc_testSendTransaction, mbind, Eff_bind.
    rewrite (find_account_known _ _ _ Hin).
    unfold emit, settle. rewrite Htx, Hb1, Hb2, Hp1, Hp2, Hq1, Hq2.
    apply Z.ltb_lt in Hlt. rewrite Hlt. reflexivity. }
  split; [apply Hrun|].
  intros s cl se Hc Hs. unfold wrapped.
  rewrite (handler_settles _ _ _ _ _ _ _ Hc Hs).
  cbn [routine]. rewrite Hrun. cbn [fst snd settled_state].
  by rewrite <- !(assoc_L (++)).
Qed.

Lemma C4_witness :
  let refused :=
    {| method := Some (VStr "eth_sendTransaction");
       address := Some "0xab";
       valid := false;
       result := VStr "Insufficient funds for intrinsic transaction cost" |} in
  ethereumRpc_testSendTransaction sample_ctx (sample_world true) "eip155:1" "0xab" []
    = (Returned refused, [] ++ [EvNetwork "formatTestTransaction"])
  ∧ ∀ s cl se,
      client sample_ctx = Some cl →
      session sample_ctx = Some se →
      wrapped sample_ctx (sample_world true) EthSendTransaction "eip155:1" "0xab" s
        = (Returned (),
           {| pending := false;
              rpcResult := Stored refused;
              log := log s ++ [EvSetPending true;
                               EvNetwork "formatTestTransaction";
                               EvSetResult (Stored refused);
                               EvSetPending false] |}).
Proof.
  apply (C4_insufficient_funds_short_circuit sample_ctx (sample_world true)
           "eip155:1" "0xab" [] sample_tx (VStr "0") 0%Z
           (VStr "0x02") 2%Z (VStr "0x5208") 21000%Z);
    first [reflexivity | by vm_compute | by apply list_elem_of_singleton].
Defined.



(** C6, as the code has it: behind the wrapper, with the client and the
    session defined, every request an entry's routine sends carries the
    entry's enum member as its method.  When the routine returns, the record
    it returns is the one stored, and if the enum declares the member, the
    member is a non-empty string and the record's [method] field is that
    string, except for [testEthSign], whose [method] field is the string
    followed by " (standard)".  When the routine throws, the stored record has
    no [method] field. *)
Theorem C6_method_field_of_stored_record
    ctx W e chainId address s cl se :
  client ctx = Some cl →
  session ctx = Some se →
  (∃ evs,
     (routine ctx W e chainId address (log s ++ [EvSetPending true])).2
       = (log s ++ [EvSetPending true]) ++ evs
     ∧ Forall (sends_method (wire_method e)) evs)
  ∧ match (routine ctx W e chainId address (log s ++ [EvSetPending true])).1 with
    | Returned r =>
        rpcResult (wrapped ctx W e chainId address s).2 = Stored r
        ∧ ∀ name,
            wire_method e = VStr name →
            name ≠ ""
            ∧ method r = Some (VStr match e with
                                    | EthEthSign => name +:+ " (standard)"
                                    | _ => name
                                    end)
    | Thrown err =>
        rpcResult (wrapped ctx W e chainId address s).2
          = Stored (failure_record address err)
        ∧ method (failure_record address err) = None
    end.
Proof.
  intros Hc Hs. unfold wrapped. rewrite (handler_settles _ _ _ _ _ _ _ Hc Hs).
  destruct (routine ctx W e chainId address (log s ++ [EvSetPending true]))
    as [[r|err] l'] eqn:Hrun; cbn [fst snd settled_state rpcResult].
  - split; [eapply routine_sends_wire_method, Hrun|].
    split; [reflexivity|]. intros name Hname.
    apply routine_reports_method in Hrun.
    destruct e; vm_compute in Hname; try discriminate Hname;
      injection Hname as <-; (split; [discriminate | exact Hrun]).
  - split; [eapply routine_sends_wire_method, Hrun|]. split; reflexivity.
Qed.

Lemma C6_witness :
  (∃ evs,
     (routine sample_ctx (sample_world true) EthSignPersonalMessage
        "eip155:1" "0xab" (log initial_state ++ [EvSetPending true])).2
       = (log initial_state ++ [EvSetPending true]) ++ evs
     ∧ Forall (sends_method (wire_method EthSignPersonalMessage)) evs)
  ∧ (rpcResult (wrapped sample_ctx (sample_world true) EthSignPersonalMessage
                  "eip155:1" "0xab" initial_state).2
       = Stored {| method := Some (VStr "personal_sign");
                   address := Some "0xab";
                   valid := true;
                   result := VStr "0x5163" |}
     ∧ ∀ name,
         wire_method EthSignPersonalMessage = VStr name →
         name ≠ "" ∧ Some (VStr "personal_sign") = Some (VStr name)).
Proof.
  apply (C6_method_field_of_stored_record sample_ctx (sample_world true)
           EthSignPersonalMessage "eip155:1" "0xab" initial_state
           sample_client {| topic := "t0" |}); reflexivity.
Defined.

(** C6 as stated fails: with a connected session and the known account
    [eip155:1:0xab], [testEthSign] stores a record whose [method] is
    "eth_sign (standard)", not the declared wire name "eth_sign". *)
Lemma C6_counterexample :
("eip155:1:0xab" ∈ accounts sample_ctx)
  ∧ ∃ r,
      rpcResult (wrapped sample_ctx (sample_world true) EthEthSign
                   "eip155:1" "0xab" initial_state).2 = Stored r
      ∧ method r = Some (VStr "eth_sign (standard)")
      ∧ method r ≠ Some (member DEFAULT_EIP155_METHODS "ETH_SIGN").
Proof.
  split; [by apply list_elem_of_singleton|].
  eexists. split; [reflexivity|]. split; [reflexivity | discriminate].
Qed.








Lemma routine_ignores_accounts ctx W e chainId address accs :
  consults_accounts e = false →
  routine (with_accounts accs ctx) W e chainId address
    = routine ctx W e chainId address.
Proof. destruct e; intros H; try discriminate H; reflexivity. Qed.

(** C9, as the code has it: EVM [testSendTransaction] and
    [testSignTransaction] fail with "Account for <chainId>:<address> not
    found" when the account is not in the session's account list, leaving the
    log as it was (no request sent); the routine of every other entry is the
    same whatever the account list holds. *)
Theorem C9_account_lookup_of_the_evm_transactions
    ctx W e chainId address l :
  (chainId +:+ ":" +:+ address) ∉ accounts ctx →
  (consults_accounts e = true →
   routine ctx W e chainId address l
     = (Thrown (Error ("Account for " +:+ (chainId +:+ ":" +:+ address)
                         +:+ " not found")), l))
  ∧ (consults_accounts e = false →
     ∀ accs,
       routine (with_accounts accs ctx) W e chainId address l
         = routine ctx W e chainId address l).
Proof.
  intros Hnot. split.
  - destruct e; intros H; try discriminate H; unfold_routines;
      unfold mbind, Eff_bind; by rewrite (find_account_unknown _ _ _ Hnot).
  - intros H accs. by rewrite routine_ignores_accounts.
Qed.

Lemma C9_witness :
  (consults_accounts EthSignTransaction = true →
   routine sample_ctx (sample_world true) EthSignTransaction "eip155:1" "0xcd" []
     = (Thrown (Error ("Account for " +:+ ("eip155:1" +:+ ":" +:+ "0xcd")
                         +:+ " not found")), []))
  ∧ (consults_accounts EthSignTransaction = false →
     ∀ accs,
       routine (with_accounts accs sample_ctx) (sample_world true)
           EthSignTransaction "eip155:1" "0xcd" []
         = routine sample_ctx (sample_world true)
             EthSignTransaction "eip155:1" "0xcd" []).
Proof.
  apply (C9_account_lookup_of_the_evm_transactions sample_ctx (sample_world true)
           EthSignTransaction "eip155:1" "0xcd" []).
  intros Hin. apply list_elem_of_singleton in Hin. discriminate Hin.
Defined.

(** C9 as stated fails: [testSignPersonalMessage], a signing operation,
    called for an account that is not in the session's account list, sends
    its request and returns a record. *)
Lemma C9_counterexample :
("eip155:1:0xcd" ∉ accounts sample_ctx)
  ∧ ∃ r params,
      routine sample_ctx (sample_world true) EthSignPersonalMessage
          "eip155:1" "0xcd" []
        = (Returned r, [EvRequest "t0" "eip155:1" (VStr "personal_sign") params]).
Proof.
  split.
  - intros Hin. apply list_elem_of_singleton in Hin. discriminate Hin.
  - eexists _, _. by vm_compute.
Qed.

(** ** The ping probe and the states at rest *)

Lemma ping_settles ctx s c se :
  client ctx = Some c →
  session ctx = Some se →
  let ok := match client_ping c (topic se) with
            | Returned _ => true
            | Thrown _ => false
            end in
  let r := {| method := Some (VStr "ping");
              address := None;
              valid := ok;
              result := VStr (if ok then "Ping succeeded" else "Ping failed") |} in
  ping ctx s
    = (Returned (),
       {| pending := false;
          rpcResult := Stored r;
          log := log s ++ [EvSetPending true; EvPing (topic se);
                           EvSetResult (Stored r); EvSetPending false] |}).
Proof.
  intros Hc Hs. unfold ping. rewrite Hc, Hs.
  unfold try_finally, try_catch, mbind, Eff_bind, setPending, setResult,
    console_error, lift, emit, settle, mret, Eff_ret.
  cbn [log pending rpcResult].
  destruct (client_ping c (topic se)); cbn [log pending rpcResult];
    rewrite <- !(assoc_L (++)); reflexivity.
Qed.

(** X1: with the client and the session defined, [ping] always resolves: it
    stores the record [{method: "ping", valid, result}] in which [valid] says
    whether [client.ping] resolved and [result] is "Ping succeeded" or "Ping
    failed" accordingly, it never reaches the [catch] that stores [null], logs
    nothing to the console, and ends with the pending flag false. *)
Theorem X1_ping_always_stores_a_verdict ctx s c se :
  client ctx = Some c →
  session ctx = Some se →
  ∃ ok,
    (ok = true ↔ ∃ u, client_ping c (topic se) = Returned u)
    ∧ ping ctx s
      = (Returned (),
         {| pending := false;
            rpcResult :=
              Stored {| method := Some (VStr "ping");
                        address := None;
                        valid := ok;
                        result := VStr (if ok then "Ping succeeded"
                                        else "Ping failed") |};
            log := log s
                   ++ [EvSetPending true; EvPing (topic se);
                       EvSetResult
                         (Stored {| method := Some (VStr "ping");
                                    address := None;
                                    valid := ok;
                                    result := VStr (if ok then "Ping succeeded"
                                                    else "Ping failed") |});
                       EvSetPending false] |}).
Proof.
  intros Hc Hs. eexists. split; [|apply (ping_settles _ _ _ _ Hc Hs)].
  destruct (client_ping c (topic se)) as [u|e]; split; eauto.
  - discriminate.
  - intros [u [=]].
Qed.

Lemma X1_witness :
  ∃ ok,
    (ok = true ↔ ∃ u, client_ping declining_client (topic {| topic := "t0" |}) = Returned u)
    ∧ ping (with_client declining_client sample_ctx) initial_state
      = (Returned (),
         {| pending := false;
            rpcResult :=
              Stored {| method := Some (VStr "ping");
                        address := None;
                        valid := ok;
                        result := VStr (if ok then "Ping succeeded"
                                        else "Ping failed") |};
            log := log initial_state
                   ++ [EvSetPending true; EvPing (topic {| topic := "t0" |});
                       EvSetResult
                         (Stored {| method := Some (VStr "ping");
                                    address := None;
                                    valid := ok;
                                    result := VStr (if ok then "Ping succeeded"
                                                    else "Ping failed") |});
                       EvSetPending false] |}).
Proof.
  apply (X1_ping_always_stores_a_verdict (with_client declining_client sample_ctx)
           initial_state declining_client {| topic := "t0" |}); reflexivity.
Defined.

Lemma invocation_never_stores_null s s' :
  rpcResult s ≠ NullResult → invocation s s' → rpcResult s' ≠ NullResult.
Proof.
  intros Hn Hinv.
  inversion Hinv as [ctx f c a s0 o s0' Hrun | ctx s0 o s0' Hrun]; subst s0 s0'.
  - destruct (client ctx) as [cl|] eqn:Hc; [destruct (session ctx) as [se|] eqn:Hs|].
    + rewrite (handler_settles _ _ _ _ _ _ _ Hc Hs) in Hrun.
      injection Hrun as _ <-.
      by destruct (f c a (log s ++ [EvSetPending true])) as [[r|e] l'].
    + rewrite handler_refuses in Hrun by auto. by injection Hrun as _ <-.
    + rewrite handler_refuses in Hrun by auto. by injection Hrun as _ <-.
  - destruct (client ctx) as [cl|] eqn:Hc; [destruct (session ctx) as [se|] eqn:Hs|].
    + rewrite (ping_settles _ _ _ _ Hc Hs) in Hrun. by injection Hrun as _ <-.
    + unfold ping in Hrun. rewrite Hc, Hs in Hrun. by injection Hrun as _ <-.
    + unfold ping in Hrun. rewrite Hc in Hrun. by injection Hrun as _ <-.
Qed.

(** X2: whatever wrapped operations and pings have run to their end, under
    whatever renders, the result cell never holds [null]: it is the initial
    [undefined] or a stored record. *)
Theorem X2_result_is_never_null s :
  at_rest s → rpcResult s ≠ NullResult.
Proof.
  unfold at_rest.
  apply (rtc_ind_r (λ s, rpcResult s ≠ NullResult) initial_state); [discriminate|].
  eauto using invocation_never_stores_null.
Qed.

Lemma X2_witness :
  rpcResult (ping sample_ctx initial_state).2 ≠ NullResult.
Proof.
  apply (X2_result_is_never_null (ping sample_ctx initial_state).2).
  eapply rtc_l; [|apply rtc_refl].
  eapply (invoke_ping sample_ctx initial_state). reflexivity.
Defined.

(** ** Chain identifiers and the chain-metadata check *)









(** ** The EVM message verifier *)

Lemma ascii_toLowerCase_idempotent c :
  ascii_toLowerCase (ascii_toLowerCase c) = ascii_toLowerCase c.
Proof. destruct c as [[] [] [] [] [] [] [] []]; reflexivity. Qed.

Lemma toLowerCase_idempotent s : toLowerCase (toLowerCase s) = toLowerCase s.
Proof.
  induction s as [|c s IH]; simpl; [reflexivity|].
  by rewrite ascii_toLowerCase_idempotent, IH.
Qed.

(** X4: [_verifyEip155MessageSignature] compares addresses without regard to
    letter case: two claimed addresses that agree once lower-cased get the
    same answer (verdict or thrown error), and lower-casing the claimed
    address beforehand changes nothing. *)
Theorem X4_eip155_verdict_ignores_letter_case W message signature a a' :
  toLowerCase a = toLowerCase a' →
  _verifyEip155MessageSignature W message signature a
    = _verifyEip155MessageSignature W message signature a'
  ∧ _verifyEip155MessageSignature W message signature (toLowerCase a)
    = _verifyEip155MessageSignature W message signature a.
Proof.
  intros H. unfold _verifyEip155MessageSignature.
  rewrite toLowerCase_idempotent, H. split; reflexivity.
Qed.

Lemma X4_witness :
  _verifyEip155MessageSignature (sample_world true) "hello" (VStr "0x5163")
      "0xAb5801a7D398351b8bE11C439e05C5B3259aeC9B"
    = _verifyEip155MessageSignature (sample_world true) "hello" (VStr "0x5163")
        "0xab5801a7d398351b8be11c439e05c5b3259aec9b"
  ∧ _verifyEip155MessageSignature (sample_world true) "hello" (VStr "0x5163")
      (toLowerCase "0xAb5801a7D398351b8bE11C439e05C5B3259aeC9B")
    = _verifyEip155MessageSignature (sample_world true) "hello" (VStr "0x5163")
        "0xAb5801a7D398351b8bE11C439e05C5B3259aeC9B".
Proof.
  apply (X4_eip155_verdict_ignores_letter_case (sample_world true) "hello"
           (VStr "0x5163") "0xAb5801a7D398351b8bE11C439e05C5B3259aeC9B"
           "0xab5801a7d398351b8be11c439e05c5b3259aec9b").
  reflexivity.
Defined.

(** ** How failures of the request surface *)



(** ** EVM [testSendTransaction] beyond the short-circuit *)

(** X6: EVM [testSendTransaction], for a known account whose first balance
    is at least gasPrice × gasLimit (equality included), sends
    [eth_sendTransaction] with the formatted transaction as its only
    parameter, after the helper's network read.  If the wallet answers, the
    routine returns [valid: true] with the answer as [result]; if the wallet
    rejects, the routine throws the rejection. *)
Theorem X6_sufficient_funds_sends_the_transaction
    ctx W chainId address l cl se tx balance_text b price gas_price limit
    gas_limit answer :
  client ctx = Some cl →
  session ctx = Some se →
  (chainId +:+ ":" +:+ address) ∈ accounts ctx →
  formatTestTransaction W (chainId +:+ ":" +:+ address) = Returned tx →
  first_balance ctx (chainId +:+ ":" +:+ address) = Returned balance_text →
  BigNumber_from W balance_text = Returned b →
  js_get tx "gasPrice" = Returned price →
  BigNumber_from W price = Returned gas_price →
  js_get tx "gasLimit" = Returned limit →
  BigNumber_from W limit = Returned gas_limit →
  (gas_price * gas_limit ≤ b)%Z →
  request cl (topic se) chainId (VStr "eth_sendTransaction") (VArr [tx]) = answer →
  ethereumRpc_testSendTransaction ctx W chainId address l
    = (match answer with
       | Returned hash =>
           Returned {| method := Some (VStr "eth_sendTransaction");
                       address := Some address;
                       valid := true;
                       result := hash |}
       | Thrown v => Thrown v
       end,
       l ++ [EvNetwork "formatTestTransaction";
             EvRequest (topic se) chainId (VStr "eth_sendTransaction") (VArr [tx])]).
Proof.
  intros Hc Hs Hin Htx Hb1 Hb2 Hp1 Hp2 Hq1 Hq2 Hle Hreq.
  unfold ethereumRpc_testSendTransaction, mbind, Eff_bind.
  rewrite (find_account_known _ _ _ Hin).
  unfold emit, settle. rewrite Htx, Hb1, Hb2, Hp1, Hp2, Hq1, Hq2.
  apply Z.ltb_ge in Hle. rewrite Hle.
  unfold client_request, mbind, Eff_bind, emit, settle. rewrite Hc, Hs.
  cbn [member DEFAULT_EIP155_METHODS assoc String.eqb Ascii.eqb Bool.eqb].
  rewrite Hreq, <- (assoc_L (++)). by destruct answer.
Qed.

(** X7: EVM [testSendTransaction], for a known account that has no list in
    the balance map, or an empty one, throws the engine's TypeError for the
    failed read ([balances[account][0]], resp. [.balance]) after the helper's
    network read and before anything is sent over the session transport. *)
Theorem X7_missing_balance_is_a_type_error
    ctx W chainId address l tx :
  (chainId +:+ ":" +:+ address) ∈ accounts ctx →
  formatTestTransaction W (chainId +:+ ":" +:+ address) = Returned tx →
  balances ctx !! (chainId +:+ ":" +:+ address) = None
  ∨ balances ctx !! (chainId +:+ ":" +:+ address) = Some [] →
  ethereumRpc_testSendTransaction ctx W chainId address l
    = (Thrown (TypeError_read "undefined"
                 match balances ctx !! (chainId +:+ ":" +:+ address) with
                 | None => "0"
                 | Some _ => "balance"
                 end),
       l ++ [EvNetwork "formatTestTransaction"]).
Proof.
  intros Hin Htx Hbal.
  unfold ethereumRpc_testSendTransaction, mbind, Eff_bind.
  rewrite (find_account_known _ _ _ Hin).
  unfold emit, settle, first_balance. rewrite Htx.
  by destruct Hbal as [-> | ->].
Qed.

Lemma X6_witness :
  ethereumRpc_testSendTransaction
      (with_balances {[ "eip155:1:0xab" := [sample_asset "42000"] ]} sample_ctx)
      (with_BigNumber_from
         (λ v, match v with
               | VStr "42000" => Returned 42000%Z
               | _ => BigNumber_from (sample_world true) v
               end)
         (sample_world true))
      "eip155:1" "0xab" []
    = (match Returned (VStr "0x5163") with
       | Returned hash =>
           Returned {| method := Some (VStr "eth_sendTransaction");
                       address := Some "0xab";
                       valid := true;
                       result := hash |}
       | Thrown v => Thrown v
       end,
       [] ++ [EvNetwork "formatTestTransaction";
              EvRequest (topic {| topic := "t0" |}) "eip155:1"
                (VStr "eth_sendTransaction") (VArr [sample_tx])]).
Proof.
  apply (X6_sufficient_funds_sends_the_transaction
           (with_balances {[ "eip155:1:0xab" := [sample_asset "42000"] ]} sample_ctx)
           (with_BigNumber_from
              (λ v, match v with
                    | VStr "42000" => Returned 42000%Z
                    | _ => BigNumber_from (sample_world true) v
                    end)
              (sample_world true))
           "eip155:1" "0xab" [] sample_client {| topic := "t0" |}
           sample_tx (VStr "42000") 42000%Z (VStr "0x02") 2%Z
           (VStr "0x5208") 21000%Z (Returned (VStr "0x5163")));
    first [reflexivity | by vm_compute | by apply list_elem_of_singleton].
Defined.

Lemma X7_witness :
  ethereumRpc_testSendTransaction (with_balances ∅ sample_ctx) (sample_world true)
      "eip155:1" "0xab" []
    = (Thrown (TypeError_read "undefined"
                 match balances (with_balances ∅ sample_ctx)
                         !! ("eip155:1" +:+ ":" +:+ "0xab") with
                 | None => "0"
                 | Some _ => "balance"
                 end),
       [] ++ [EvNetwork "formatTestTransaction"]).
Proof.
  apply (X7_missing_balance_is_a_type_error (with_balances ∅ sample_ctx)
           (sample_world true) "eip155:1" "0xab" [] sample_tx);
    first [reflexivity | by apply list_elem_of_singleton | by left].
Defined.

(** ** The address field *)

Lemma routine_reports_address ctx W e chainId addr :
  returns_only (λ r, address r = Some addr)
    (routine ctx W e chainId addr).
Proof.
  destruct e; unfold_routines;
    repeat lazymatch goal with
      | |- returns_only _ (mthrow _) => apply returns_throw
      | |- returns_only _ (mret _) => apply returns_ret
      | |- returns_only _ (rethrow_as_Error _) => apply returns_rethrow
      | |- returns_only _ (mbind _ _) => apply returns_bind; intros ?
      | |- returns_only _ (match ?x with _ => _ end) => destruct x
      end;
    reflexivity.
Qed.

(** X8: behind the wrapper, with the client and the session defined, every
    method-table entry ends with a stored record whose [address] field is the
    address it was invoked with, whether its routine returned or threw. *)
Theorem X8_stored_record_names_the_address
    ctx W e chainId addr s cl se :
  client ctx = Some cl →
  session ctx = Some se →
  ∃ r,
    rpcResult (wrapped ctx W e chainId addr s).2 = Stored r
    ∧ address r = Some addr.
Proof.
  intros Hc Hs. unfold wrapped. rewrite (handler_settles _ _ _ _ _ _ _ Hc Hs).
  destruct (routine ctx W e chainId addr (log s ++ [EvSetPending true]))
    as [[r|err] l'] eqn:Hrun; cbn [fst snd settled_state rpcResult];
    eexists; (split; [reflexivity|]).
  - eapply routine_reports_address, Hrun.
  - reflexivity.
Qed.

Lemma X8_witness :
  ∃ r,
    rpcResult (wrapped sample_ctx (sample_world true) SolanaSignTransaction
                 "solana:4sGjMW1sUnHzSxGspuhpqLDx6wiyjNtZ" "So1" initial_state).2
      = Stored r
    ∧ address r = Some "So1".
Proof.
  apply (X8_stored_record_names_the_address sample_ctx (sample_world true)
           SolanaSignTransaction "solana:4sGjMW1sUnHzSxGspuhpqLDx6wiyjNtZ" "So1"
           initial_state sample_client {| topic := "t0" |}); reflexivity.
Defined.

(** ** Missing Solana key material *)

(** X9: when the render has no public key for the address (no key table at
    all, or a table without the address), Solana [testSignMessage] throws
    before anything reaches the log: "Could not find Solana PublicKeys." when
    the table is missing, and otherwise the rethrown TypeError of
    [senderPublicKey.toBase58()].  With the table missing,
    [testSignTransaction] throws the same first error, before it fetches a
    blockhash. *)
Theorem X9_solana_needs_the_public_key ctx W chainId address l :
  solanaPublicKeys ctx ≫= (λ keys, keys !! address) = None →
  solanaRpc_testSignMessage ctx W chainId address l
    = (Thrown (Error match solanaPublicKeys ctx with
                     | None => "Could not find Solana PublicKeys."
                     | Some _ =>
                         "TypeError: Cannot read properties of undefined (reading 'toBase58')"
                     end), l)
  ∧ (solanaPublicKeys ctx = None →
     solanaRpc_testSignTransaction ctx W chainId address l
       = (Thrown (Error "Could not find Solana PublicKeys."), l)).
Proof.
  intros Hkey. split.
  - unfold solanaRpc_testSignMessage.
    destruct (solanaPublicKeys ctx) as [keys|]; [|reflexivity].
    simpl in Hkey.
    unfold rethrow_as_Error, try_catch, mbind, Eff_bind, settle.
    rewrite Hkey. reflexivity.
  - intros Hnone. unfold solanaRpc_testSignTransaction. by rewrite Hnone.
Qed.

Lemma X9_witness :
  solanaRpc_testSignMessage sample_ctx (sample_world true)
      "solana:4sGjMW1sUnHzSxGspuhpqLDx6wiyjNtZ" "So2" []
    = (Thrown (Error match solanaPublicKeys sample_ctx with
                     | None => "Could not find Solana PublicKeys."
                     | Some _ =>
                         "TypeError: Cannot read properties of undefined (reading 'toBase58')"
                     end), [])
  ∧ (solanaPublicKeys sample_ctx = None →
     solanaRpc_testSignTransaction sample_ctx (sample_world true)
         "solana:4sGjMW1sUnHzSxGspuhpqLDx6wiyjNtZ" "So2" []
       = (Thrown (Error "Could not find Solana PublicKeys."), [])).
Proof.
  apply (X9_solana_needs_the_public_key sample_ctx (sample_world true)
           "solana:4sGjMW1sUnHzSxGspuhpqLDx6wiyjNtZ" "So2" []).
  by vm_compute.
Defined.

(** ** The wire names *)

(** X10: the wire method names tell the entries apart: two entries whose
    enum member is declared and equal are the same entry. *)
Theorem X10_declared_wire_methods_are_distinct e1 e2 name :
  wire_method e1 = VStr name →
  wire_method e2 = VStr name →
  e1 = e2.
Proof.
  intros H1 H2.
  destruct e1; vm_compute in H1; try discriminate H1; injection H1 as <-;
    destruct e2; vm_compute in H2; try discriminate H2; reflexivity.
Qed.

Lemma X10_witness : CosmosSignAmino = CosmosSignAmino.
Proof.
  apply (X10_declared_wire_methods_are_distinct CosmosSignAmino CosmosSignAmino
           "cosmos_signAmino"); reflexivity.
Defined.

(** ** NEAR bulk transactions *)

Lemma get_each_Forall2 items prop vs :
  get_each items prop = Returned vs
  ↔ Forall2 (λ x v, js_get x prop = Returned v) items vs.
Proof.
  revert vs. induction items as [|x items IH]; intros vs; simpl.
  - split; [intros [= <-]; constructor | by inversion 1].
  - destruct (js_get x prop) as [v|e] eqn:Hx.
    + destruct (get_each items prop) as [vs'|e'] eqn:Hrest.
      * split.
        -- intros [= <-]. constructor; [exact Hx | by apply IH].
        -- inversion 1 as [|? v0 ? vs0 Hv Hvs]; subst.
           rewrite Hx in Hv. injection Hv as <-.
           apply IH in Hvs. by injection Hvs as <-.
      * split; [intros [=]|].
        inversion 1 as [|? v0 ? vs0 Hv Hvs]; subst.
        apply IH in Hvs. discriminate Hvs.
    + split; [intros [=]|].
      inversion 1 as [|? v0 ? vs0 Hv Hvs]; subst. rewrite Hx in Hv. discriminate Hv.
Qed.

(** X11: NEAR [testSignAndSendTransactions] when the wallet answers.  An
    array answer is mapped element by element: if reading [.transaction]
    succeeds on every element, the routine returns [valid: true] with the
    stringified array of those values, one per element and in order; an
    answer that is a string, a number, a boolean or a plain object makes it
    throw "result.map is not a function".  Either way the request is the one
    event it leaves in the log. *)
Theorem X11_near_bulk_maps_the_answer
    ctx W chainId address l cl se answer :
  client ctx = Some cl →
  session ctx = Some se →
  (∀ params,
     request cl (topic se) chainId (VStr "near_signAndSendTransactions") params
       = Returned answer) →
  ∃ params,
    (∀ items vs,
       answer = VArr items →
       Forall2 (λ x v, js_get x "transaction" = Returned v) items vs →
       nearRpc_testSignAndSendTransactions ctx W chainId address l
         = (Returned {| method := Some (VStr "near_signAndSendTransactions");
                        address := Some address;
                        valid := true;
                        result := JSON_stringify W (VArr vs) |},
            l ++ [EvRequest (topic se) chainId
                    (VStr "near_signAndSendTransactions") params]))
    ∧ (match answer with
       | VBool _ | VNum _ | VStr _ | VObj _ | VError _ _ => True
       | _ => False
       end →
       nearRpc_testSignAndSendTransactions ctx W chainId address l
         = (Thrown (VError "TypeError" "result.map is not a function"),
            l ++ [EvRequest (topic se) chainId
                    (VStr "near_signAndSendTransactions") params])).
Proof.
  intros Hc Hs Hreq. eexists. split.
  - intros items vs -> Hall. apply get_each_Forall2 in Hall.
    unfold nearRpc_testSignAndSendTransactions, client_request, mbind, Eff_bind,
      emit, settle.
    rewrite Hc, Hs.
    cbn [member DEFAULT_NEAR_METHODS assoc String.eqb Ascii.eqb Bool.eqb].
    rewrite Hreq. cbn [js_map_get]. rewrite Hall. reflexivity.
  - intros Hshape.
    unfold nearRpc_testSignAndSendTransactions, client_request, mbind, Eff_bind,
      emit, settle.
    rewrite Hc, Hs.
    cbn [member DEFAULT_NEAR_METHODS assoc String.eqb Ascii.eqb Bool.eqb].
    rewrite Hreq. by destruct answer.
Qed.

Lemma X11_witness :
  ∃ params,
    (∀ items vs,
       VObj [("signature", VStr "a1");
             ("signatures", sample_signatures);
             ("transaction", VObj [("hash", VStr "9f")])] = VArr items →
       Forall2 (λ x v, js_get x "transaction" = Returned v) items vs →
       nearRpc_testSignAndSendTransactions sample_ctx (sample_world true)
           "near:testnet" "dev.testnet" []
         = (Returned {| method := Some (VStr "near_signAndSendTransactions");
                        address := Some "dev.testnet";
                        valid := true;
                        result := JSON_stringify (sample_world true) (VArr vs) |},
            [] ++ [EvRequest (topic {| topic := "t0" |}) "near:testnet"
                     (VStr "near_signAndSendTransactions") params]))
    ∧ (match VObj [("signature", VStr "a1");
                   ("signatures", sample_signatures);
                   ("transaction", VObj [("hash", VStr "9f")])] with
       | VBool _ | VNum _ | VStr _ | VObj _ | VError _ _ => True
       | _ => False
       end →
       nearRpc_testSignAndSendTransactions sample_ctx (sample_world true)
           "near:testnet" "dev.testnet" []
         = (Thrown (VError "TypeError" "result.map is not a function"),
            [] ++ [EvRequest (topic {| topic := "t0" |}) "near:testnet"
                     (VStr "near_signAndSendTransactions") params])).
Proof.
  apply (X11_near_bulk_maps_the_answer sample_ctx (sample_world true)
           "near:testnet" "dev.testnet" [] sample_client {| topic := "t0" |});
    reflexivity.
Defined.

(** ** The Elrond batch at its edges *)






(** ** What a routine leaves in the log *)

Lemma requests_app evs1 evs2 :
  requests (evs1 ++ evs2) = (requests evs1 + requests evs2)%nat.
Proof. unfold requests. by rewrite List.filter_app, length_app. Qed.

Section Counting.
Context {A B : Type}.
Implicit Types (m : Rpc A) (f : A → Rpc B) (Q : B → Prop).

Lemma sends_nothing_ret (Q' : A → Prop) (a : A) : sends_if 0 Q' (mret a).
Proof.
  intros l o l' [= <- <-]. exists []. rewrite app_nil_r. repeat split; auto.
Qed.

Lemma sends_ret_excused k (Q' : A → Prop) (a : A) : Q' a → sends_if k Q' (mret a).
Proof.
  intros HQ l o l' [= <- <-]. exists []. rewrite app_nil_r.
  split; [reflexivity|]. split; [unfold requests; simpl; lia|].
  intros a' [= <-]. by right.
Qed.

Lemma sends_throw k (Q' : A → Prop) (e : jsval) : sends_if k Q' (mthrow e).
Proof.
  intros l o l' [= <- <-]. exists []. rewrite app_nil_r.
  split; [reflexivity|]. split; [unfold requests; simpl; lia|]. intros a [=].
Qed.

Lemma sends_nothing_settle (Q' : A → Prop) (o : outcome A) : sends_if 0 Q' (settle o).
Proof.
  intros l o' l' [= <- <-]. exists []. rewrite app_nil_r. repeat split; auto.
Qed.

Lemma sends_bind_quiet k Q m f :
  sends_if 0 (λ _, False) m →
  (∀ a, sends_if k Q (f a)) →
  sends_if k Q (m ≫= f).
Proof.
  intros Hm Hf l o l'. unfold mbind, Eff_bind.
  destruct (m l) as [[a|e] l1] eqn:Hml.
  - intros Hfa.
    destruct (Hm _ _ _ Hml) as (ev1 & -> & H1 & _).
    destruct (Hf _ _ _ _ Hfa) as (ev2 & -> & H2 & H2').
    exists (ev1 ++ ev2). rewrite (assoc_L (++)), requests_app.
    split; [reflexivity|]. split; [lia|].
    intros b Hb. destruct (H2' b Hb); [left; lia | by right].
  - intros [= <- <-].
    destruct (Hm _ _ _ Hml) as (ev1 & -> & H1 & _).
    exists ev1. split; [reflexivity|]. split; [lia|]. intros a [=].
Qed.

Lemma sends_bind_then_quiet k Q m f :
  sends_if k (λ _, False) m →
  (∀ a, sends_if 0 (λ _, False) (f a)) →
  sends_if k Q (m ≫= f).
Proof.
  intros Hm Hf l o l'. unfold mbind, Eff_bind.
  destruct (m l) as [[a|e] l1] eqn:Hml.
  - intros Hfa.
    destruct (Hm _ _ _ Hml) as (ev1 & -> & H1 & H1').
    destruct (Hf _ _ _ _ Hfa) as (ev2 & -> & H2 & _).
    destruct (H1' a eq_refl) as [Hk|[]].
    exists (ev1 ++ ev2). rewrite (assoc_L (++)), requests_app.
    split; [reflexivity|]. split; [lia|]. intros b _. left. lia.
  - intros [= <- <-].
    destruct (Hm _ _ _ Hml) as (ev1 & -> & H1 & _).
    exists ev1. split; [reflexivity|]. split; [lia|]. intros a [=].
Qed.

Lemma sends_rethrow k (Q' : A → Prop) m :
  sends_if k Q' m → sends_if k Q' (rethrow_as_Error m).
Proof.
  intros Hm l o l'. unfold rethrow_as_Error, try_catch.
  destruct (m l) as [[a|e] l1] eqn:Hml.
  - intros [= <- <-]. eapply Hm, Hml.
  - intros [= <- <-]. destruct (Hm _ _ _ Hml) as (ev1 & -> & H1 & _).
    exists ev1. split; [reflexivity|]. split; [lia|]. intros a [=].
Qed.
End Counting.

Lemma sends_nothing_emit Q ev : is_request ev = false → sends_if 0 Q (emit ev).
Proof.
  intros H l o l' [= <- <-]. exists [ev].
  split; [reflexivity|]. unfold requests. simpl. rewrite H. simpl.
  split; [lia|]. auto.
Qed.

Lemma sends_one_client_request ctx Q chainId method params :
  sends_if 1 Q (client_request ctx chainId method params).
Proof.
  unfold client_request.
  destruct (client ctx); [|apply sends_throw].
  destruct (session ctx); [|apply sends_throw].
  intros l o l'. unfold mbind, Eff_bind, emit, settle. intros [= <- <-].
  eexists. split; [reflexivity|]. unfold requests. simpl. auto.
Qed.

Lemma sends_nothing_find_account ctx Q caip : sends_if 0 Q (find_account ctx caip).
Proof.
  unfold find_account.
  destruct (List.find _ _); [apply sends_nothing_ret | apply sends_throw].
Qed.

Lemma sends_nothing_require_chainData ctx Q chainId :
  sends_if 0 Q (require_chainData ctx chainId).
Proof.
  unfold require_chainData. apply sends_bind_quiet; [apply sends_nothing_settle|].
  intros v. destruct (is_undefined v); [apply sends_throw | apply sends_nothing_ret].
Qed.

Lemma sends_nothing_verify_batch W Q userAddress result txs index acc :
  sends_if 0 Q (verify_batch W userAddress result txs index acc).
Proof.
  revert index acc. induction txs as [|current rest IH]; intros index acc; simpl.
  - apply sends_nothing_ret.
  - repeat (apply sends_bind_quiet; [apply sends_nothing_settle | intros ?]).
    apply sends_bind_quiet;
      [destruct acc; [apply sends_nothing_settle | apply sends_nothing_ret]|].
    intros acc'. apply IH.
Qed.

Lemma routine_sends_one_request ctx W e chainId addr :
  sends_if 1 (λ r, e = EthSendTransaction ∧ valid r = false)
    (routine ctx W e chainId addr).
Proof.
  destruct e; unfold_routines;
    repeat lazymatch goal with
      | |- sends_if _ _ (mthrow _) => apply sends_throw
      | |- sends_if 0 _ (mret _) => apply sends_nothing_ret
      | |- sends_if _ _ (mret _) => apply sends_ret_excused; split; reflexivity
      | |- sends_if _ _ (settle _) => apply sends_nothing_settle
      | |- sends_if _ _ (emit _) => apply sends_nothing_emit; reflexivity
      | |- sends_if _ _ (find_account _ _) => apply sends_nothing_find_account
      | |- sends_if _ _ (require_chainData _ _) =>
          apply sends_nothing_require_chainData
      | |- sends_if _ _ (verify_batch _ _ _ _ _ _) =>
          apply sends_nothing_verify_batch
      | |- sends_if _ _ (client_request _ _ _ _) => apply sends_one_client_request
      | |- sends_if _ _ (rethrow_as_Error _) => apply sends_rethrow
      | |- sends_if _ _ (mbind _ (client_request _ _ _ _)) =>
          apply sends_bind_then_quiet; [|intros ?]
      | |- sends_if _ _ (mbind _ _) => apply sends_bind_quiet; [|intros ?]
      | |- sends_if _ _ (match ?x with _ => _ end) => destruct x
      end.
Qed.

(** X14: a routine never sends more than one request over the session
    transport in an invocation, and it never returns a record without having
    sent exactly one, with a single exception: the [valid: false] record of
    EVM [testSendTransaction]'s insufficient-funds short-circuit. *)
Theorem X14_one_request_per_invocation ctx W e chainId addr l :
  ∃ evs,
    (routine ctx W e chainId addr l).2 = l ++ evs
    ∧ requests evs ≤ 1
    ∧ ∀ r,
        (routine ctx W e chainId addr l).1 = Returned r →
        requests evs = 1 ∨ (e = EthSendTransaction ∧ valid r = false).
Proof.
  destruct (routine ctx W e chainId addr l) as [o l'] eqn:Hrun.
  apply routine_sends_one_request in Hrun as (evs & -> & Hle & Hret).
  exists evs. eauto.
Qed.

Lemma adds_client_request_to_session ctx P chainId method params :
  (∀ se, session ctx = Some se → P (EvRequest (topic se) chainId method params)) →
  adds_only P (client_request ctx chainId method params).
Proof.
  intros H. unfold client_request.
  destruct (client ctx); [|apply adds_throw].
  destruct (session ctx) as [se|]; [|apply adds_throw].
  apply adds_bind; [by apply adds_emit, H | intros _; apply adds_settle].
Qed.

Lemma routine_events_addressed ctx W e chainId addr :
  adds_only (addressed ctx e chainId) (routine ctx W e chainId addr).
Proof.
  destruct e; unfold_routines;
    repeat lazymatch goal with
      | |- adds_only _ (mret _) => apply adds_ret
      | |- adds_only _ (mthrow _) => apply adds_throw
      | |- adds_only _ (settle _) => apply adds_settle
      | |- adds_only _ (emit _) => apply adds_emit; reflexivity
      | |- adds_only _ (client_request _ _ _ _) =>
          apply adds_client_request_to_session;
          intros se Hse; cbn [addressed]; by rewrite Hse
      | |- adds_only _ (find_account _ _) => apply adds_find_account
      | |- adds_only _ (require_chainData _ _) => apply adds_require_chainData
      | |- adds_only _ (verify_batch _ _ _ _ _ _) => apply adds_verify_batch
      | |- adds_only _ (rethrow_as_Error _) => apply adds_rethrow
      | |- adds_only _ (mbind _ _) => apply adds_bind; [|intros ?]
      | |- adds_only _ (match ?x with _ => _ end) => destruct x
      end.
Qed.

(** X15: all a routine ever adds to the log are requests addressed to the
    topic of the current session, for the chain id it was called with, and
    the network read of its entry: [formatTestTransaction] for the two EVM
    transaction entries, [getRecentBlockhash] for Solana
    [testSignTransaction], none for any other entry.  A routine never pings,
    never writes to the console and never calls a state setter. *)
Theorem X15_routine_events_are_addressed ctx W e chainId addr l :
  ∃ evs,
    (routine ctx W e chainId addr l).2 = l ++ evs
    ∧ Forall (addressed ctx e chainId) evs.
Proof.
  destruct (routine ctx W e chainId addr l) as [o l'] eqn:Hrun.
  by apply routine_events_addressed in Hrun.
Qed.

(** ** Independence from the state a routine is invoked in *)

Section Framing.
Context {A B : Type}.
Implicit Types (m : Rpc A) (f : A → Rpc B).

Lemma framed_ret (a : A) : framed (mret a : Rpc A).
Proof. intros l. unfold mret, Eff_ret. simpl. by rewrite app_nil_r. Qed.

Lemma framed_throw (e : jsval) : framed (mthrow e : Rpc A).
Proof. intros l. unfold mthrow, Eff_throw. simpl. by rewrite app_nil_r. Qed.

Lemma framed_settle (o : outcome A) : framed (settle o : Rpc A).
Proof. intros l. unfold settle. simpl. by rewrite app_nil_r. Qed.

Lemma framed_bind m f : framed m → (∀ a, framed (f a)) → framed (m ≫= f).
Proof.
  intros Hm Hf l. unfold mbind, Eff_bind. rewrite (Hm l).
  destruct (m []) as [[a|e] e1]; cbn [fst snd]; [|reflexivity].
  rewrite (Hf a (l ++ e1)), (Hf a e1). cbn [fst snd].
  by rewrite (assoc_L (++)).
Qed.

Lemma framed_try_catch m (h : jsval → Rpc A) :
  framed m → (∀ e, framed (h e)) → framed (try_catch m h).
Proof.
  intros Hm Hh l. unfold try_catch. rewrite (Hm l).
  destruct (m []) as [[a|e] e1]; cbn [fst snd]; [reflexivity|].
  rewrite (Hh e (l ++ e1)), (Hh e e1). cbn [fst snd].
  by rewrite (assoc_L (++)).
Qed.

Lemma framed_rethrow m : framed m → framed (rethrow_as_Error m).
Proof.
  intros Hm. apply framed_try_catch; [exact Hm | intros e; apply framed_throw].
Qed.
End Framing.

Lemma framed_emit ev : framed (emit ev).
Proof. intros l. reflexivity. Qed.

Lemma framed_client_request ctx chainId method params :
  framed (client_request ctx chainId method params).
Proof.
  unfold client_request.
  destruct (client ctx); [|apply framed_throw].
  destruct (session ctx); [|apply framed_throw].
  apply framed_bind; [apply framed_emit | intros _; apply framed_settle].
Qed.

Lemma framed_find_account ctx caip : framed (find_account ctx caip).
Proof.
  unfold find_account.
  destruct (List.find _ _); [apply framed_ret | apply framed_throw].
Qed.

Lemma framed_require_chainData ctx chainId : framed (require_chainData ctx chainId).
Proof.
  unfold require_chainData. apply framed_bind; [apply framed_settle|].
  intros v. destruct (is_undefined v); [apply framed_throw | apply framed_ret].
Qed.

Lemma framed_verify_batch W userAddress result txs index acc :
  framed (verify_batch W userAddress result txs index acc).
Proof.
  revert index acc. induction txs as [|current rest IH]; intros index acc; simpl.
  - apply framed_ret.
  - repeat (apply framed_bind; [apply framed_settle | intros ?]).
    apply framed_bind; [destruct acc; [apply framed_settle | apply framed_ret]|].
    intros acc'. apply IH.
Qed.

(** No routine reads the log. *)
Lemma routine_framed ctx W e chainId addr :
  framed (routine ctx W e chainId addr).
Proof.
  destruct e; unfold_routines;
    repeat lazymatch goal with
      | |- framed (mret _) => apply framed_ret
      | |- framed (mthrow _) => apply framed_throw
      | |- framed (settle _) => apply framed_settle
      | |- framed (emit _) => apply framed_emit
      | |- framed (client_request _ _ _ _) => apply framed_client_request
      | |- framed (find_account _ _) => apply framed_find_account
      | |- framed (require_chainData _ _) => apply framed_require_chainData
      | |- framed (verify_batch _ _ _ _ _ _) => apply framed_verify_batch
      | |- framed (rethrow_as_Error _) => apply framed_rethrow
      | |- framed (mbind _ _) => apply framed_bind; [|intros ?]
      | |- framed (match ?x with _ => _ end) => destruct x
      end.
Qed.

(** X16: behind the wrapper, with the client and the session defined, what
    an invocation of a method-table entry stores and what it appends to the
    log are the same in whatever state it is invoked: they do not depend on
    the record stored before, on the pending flag or on earlier events, so
    re-invoking the entry under the same render and world supersedes the
    stored record with an equal one. *)
Theorem X16_invocation_is_independent_of_the_state
    ctx W e chainId addr cl se :
  client ctx = Some cl →
  session ctx = Some se →
  ∃ cell evs,
    ∀ s,
      wrapped ctx W e chainId addr s
        = (Returned (), {| pending := false;
                           rpcResult := cell;
                           log := log s ++ evs |}).
Proof.
  intros Hc Hs.
  destruct (routine ctx W e chainId addr []) as [o e0] eqn:Hrun.
  exists (rpcResult (settled_state addr o [])),
         (EvSetPending true :: log (settled_state addr o e0)).
  intros s. unfold wrapped. rewrite (handler_settles _ _ _ _ _ _ _ Hc Hs).
  rewrite (routine_framed ctx W e chainId addr (log s ++ [EvSetPending true])).
  rewrite Hrun. cbn [fst snd]. f_equal.
  destruct o as [r|err]; cbn [settled_state pending rpcResult log];
    f_equal; rewrite <- !(assoc_L (++)); reflexivity.
Qed.

Lemma X16_witness :
  ∃ cell evs,
    ∀ s,
      wrapped sample_ctx (sample_world true) CosmosSignDirect
          "cosmos:cosmoshub-4" "cosmos1" s
        = (Returned (), {| pending := false;
                           rpcResult := cell;
                           log := log s ++ evs |}).
Proof.
  apply (X16_invocation_is_independent_of_the_state sample_ctx (sample_world true)
           CosmosSignDirect "cosmos:cosmoshub-4" "cosmos1"
           sample_client {| topic := "t0" |}); reflexivity.
Defined.

(** ** The shape of a wrapped invocation *)

(** X17: behind the wrapper, with the client and the session defined, an
    invocation of a method-table entry appends to the log, in this order:
    one [setPending(true)]; the routine's own events, which are requests and
    network reads only; and then the closing calls, [setResult] once and
    [setPending(false)] once, preceded by one [console.error] exactly when the
    routine threw. *)
Theorem X17_shape_of_a_wrapped_invocation
    ctx W e chainId addr s cl se :
  client ctx = Some cl →
  session ctx = Some se →
  ∃ o evs,
    (routine ctx W e chainId addr (log s ++ [EvSetPending true])).1 = o
    ∧ log (wrapped ctx W e chainId addr s).2
      = log s ++ [EvSetPending true] ++ evs ++ closing_events addr o
    ∧ Forall (addressed ctx e chainId) evs.
Proof.
  intros Hc Hs. unfold wrapped. rewrite (handler_settles _ _ _ _ _ _ _ Hc Hs).
  destruct (routine ctx W e chainId addr (log s ++ [EvSetPending true]))
    as [o l'] eqn:Hrun.
  apply routine_events_addressed in Hrun as (evs & -> & Hevs).
  exists o, evs. split; [reflexivity|]. split; [|exact Hevs].
  destruct o; cbn [fst snd settled_state log closing_events];
    rewrite <- !(assoc_L (++)); reflexivity.
Qed.

Lemma X17_witness :
  ∃ o evs,
    (routine sample_ctx (sample_world true) ElrondSignMessage "elrond:1" "erd1"
       (log initial_state ++ [EvSetPending true])).1 = o
    ∧ log (wrapped sample_ctx (sample_world true) ElrondSignMessage
             "elrond:1" "erd1" initial_state).2
      = log initial_state ++ [EvSetPending true] ++ evs ++ closing_events "erd1" o
    ∧ Forall (addressed sample_ctx ElrondSignMessage "elrond:1") evs.
Proof.
  apply (X17_shape_of_a_wrapped_invocation sample_ctx (sample_world true)
           ElrondSignMessage "elrond:1" "erd1" initial_state
           sample_client {| topic := "t0" |}); reflexivity.
Defined.

(** ** What the Chia requests carry *)

Lemma chia_requests_carry_fingerprint ctx W e chainId addr :
  is_chia e = true →
  adds_only (carries_fingerprint addr) (routine ctx W e chainId addr).
Proof.
  destruct e; intros H; try discriminate H; unfold_routines;
    (apply adds_bind;
     [apply adds_client_request; intros; reflexivity
     | intros ?; apply adds_ret]).
Qed.

(** X18: every request a Chia entry sends names, in the [fingerprint] field
    of its parameters, the string the entry was invoked with as [address]. *)
Theorem X18_chia_requests_name_the_fingerprint ctx W e chainId addr l :
  is_chia e = true →
  ∃ evs,
    (routine ctx W e chainId addr l).2 = l ++ evs
    ∧ Forall (carries_fingerprint addr) evs.
Proof.
  intros He.
  destruct (routine ctx W e chainId addr l) as [o l'] eqn:Hrun.
  by apply (chia_requests_carry_fingerprint _ _ _ _ _ He) in Hrun.
Qed.

Lemma X18_witness :
  ∃ evs,
    (routine sample_ctx (sample_world true) ChiaTakeOffer
       "chia:testnet" "2104826454" []).2 = [] ++ evs
    ∧ Forall (carries_fingerprint "2104826454") evs.
Proof.
  apply (X18_chia_requests_name_the_fingerprint sample_ctx (sample_world true)
           ChiaTakeOffer "chia:testnet" "2104826454" []).
  reflexivity.
Defined.

(** ** Elrond addresses that do not parse *)

(** X19: when [new Address(address)] throws, each Elrond routine throws that
    same value before anything reaches the log: the address is parsed outside
    the routine's [try], so the error is not rewrapped and no request is
    sent. *)
Theorem X19_elrond_rejects_a_bad_address_first ctx W e chainId addr l v :
  is_elrond e = true →
  Address_new W addr = Thrown v →
  routine ctx W e chainId addr l = (Thrown v, l).
Proof.
  destruct e; intros He Hv; try discriminate He; unfold_routines;
    unfold mbind, Eff_bind, settle; rewrite Hv; reflexivity.
Qed.

Lemma X19_witness :
  routine sample_ctx
      (with_Address_new (λ _, Thrown (Error "Cannot create address from: 0xab"))
         (sample_world true))
      ElrondSignTransactions "elrond:1" "0xab" []
    = (Thrown (Error "Cannot create address from: 0xab"), []).
Proof.
  apply (X19_elrond_rejects_a_bad_address_first sample_ctx
           (with_Address_new (λ _, Thrown (Error "Cannot create address from: 0xab"))
              (sample_world true))
           ElrondSignTransactions "elrond:1" "0xab" []
           (Error "Cannot create address from: 0xab")); reflexivity.
Defined.

(** ** Declared and never sent *)

Lemma existsb_eqb_false name (names : list string) :
  List.existsb (String.eqb name) names = false → name ∉ names.
Proof.
  induction names as [|n names IH]; simpl; [intros _; apply not_elem_of_nil|].
  intros [Hn Hrest]%orb_false_elim. apply not_elem_of_cons. split; [|by apply IH].
  by apply String.eqb_neq.
Qed.

Lemma wire_method_is_used e name :
  wire_method e = VStr name → name ∉ unused_wire_names.
Proof.
  intros H. apply existsb_eqb_false.
  destruct e; vm_compute in H; try discriminate H; injection H as <-;
    reflexivity.
Qed.

(** X20: whatever the chain id, [hddcoin:mainnet] and [hddcoin:testnet]
    included, no routine ever requests a method of the HDDCoin enum, nor
    [near_signIn], [near_signOut], [near_getAccounts] or
    [erd_signLoginToken]: these members are declared and never sent (on an
    HDDCoin chain the Chia entries still send their [chia_] names). *)
Theorem X20_declared_names_that_are_never_sent ctx W e chainId addr l :
  ∃ evs,
    (routine ctx W e chainId addr l).2 = l ++ evs
    ∧ Forall avoids_unused_names evs.
Proof.
  destruct (routine ctx W e chainId addr l) as [o l'] eqn:Hrun.
  apply routine_sends_wire_method in Hrun as (evs & -> & Hevs).
  exists evs. split; [reflexivity|].
  eapply Forall_impl; [exact Hevs|].
  intros [] Hm; simpl in *; try exact I.
  intros name ->. by eapply wire_method_is_used.
Qed.
